(** * WeatherSerbiaCLI: the feed extraction layer of [weatherserbiafeed.py]

    A shallow embedding of [_extract_data_from_entry], of the record class
    [_WeatherStationData] and of the query methods of [WeatherSerbiaFeed],
    together with the properties the specification states about them.

    Text is modelled as [string], the UTF-8 bytes of a Python [str].  The
    program only ever splits on and strips the ASCII characters [:], [;] and
    the space, and no byte of a multi-byte UTF-8 sequence is ASCII, so splitting
    and stripping bytes agrees with splitting and stripping code points.

    Python exceptions are modelled by the error monad [result]; a Python
    [float] is an IEEE 754 binary64 value, modelled with [spec_float]. *)

From Stdlib Require Import String Ascii List ZArith Bool Lia.
From Stdlib Require Import Floats.SpecFloat.
From Stdlib Require DecimalString Orders Mergesort Sorted Permutation.
Import ListNotations.

Local Open Scope string_scope.
Local Open Scope list_scope.

(** ** Exceptions *)

(** The two built-in exceptions the module can raise: indexing a list out of
    range, and [int()] or [float()] applied to text that is not a literal. *)
Inductive exn : Set :=
| IndexError
| ValueError.

Inductive result (A : Type) : Type :=
| Ok (a : A)
| Raise (e : exn).

Arguments Ok {A} a.
Arguments Raise {A} e.

Definition bind {A B : Type} (c : result A) (k : A -> result B) : result B :=
  match c with
  | Ok a => k a
  | Raise e => Raise e
  end.

Declare Scope py_scope.
Delimit Scope py_scope with py.
Notation "x <- c ;; k" := (bind c (fun x => k))
  (at level 61, c at next level, right associativity) : py_scope.
Local Open Scope py_scope.

(** The class name Python reports for an exception. *)
Definition exn_name (e : exn) : string :=
  match e with
  | IndexError => "IndexError"
  | ValueError => "ValueError"
  end.

(** ** Built-in operations on [str] and [list] *)

Module Py.

(** [l[i]] for a non-negative index [i]. *)
Definition index {A : Type} (l : list A) (i : nat) : result A :=
  match nth_error l i with
  | Some x => Ok x
  | None => Raise IndexError
  end.

(** [s.split(sep)] for a one-character separator. *)
Fixpoint split (sep : ascii) (s : string) : list string :=
  match s with
  | EmptyString => [EmptyString]
  | String c s' =>
      if Ascii.eqb c sep then EmptyString :: split sep s'
      else match split sep s' with
           | [] => [String c EmptyString]
           | w :: ws => String c w :: ws
           end
  end.

(** [sep.join(l)]. *)
Fixpoint join (sep : ascii) (l : list string) : string :=
  match l with
  | [] => EmptyString
  | [w] => w
  | w :: ws => w ++ String sep (join sep ws)
  end.

Fixpoint lstrip (c : ascii) (s : string) : string :=
  match s with
  | EmptyString => EmptyString
  | String a s' => if Ascii.eqb a c then lstrip c s' else s
  end.

Fixpoint rstrip (c : ascii) (s : string) : string :=
  match s with
  | EmptyString => EmptyString
  | String a s' =>
      match rstrip c s' with
      | EmptyString => if Ascii.eqb a c then EmptyString else String a EmptyString
      | r => String a r
      end
  end.

(** [s.strip(c)] for a one-character set [c]. *)
Definition strip (c : ascii) (s : string) : string := rstrip c (lstrip c s).

(** Number of occurrences of a character: [s.count(c)]. *)
Fixpoint count (c : ascii) (s : string) : nat :=
  match s with
  | EmptyString => 0
  | String a s' => (if Ascii.eqb a c then 1 else 0) + count c s'
  end.

(** *** Numeric literals

    [int(s)] and [float(s)] on text.  The grammar is the ASCII one of
    CPython 3: surrounding white space is ignored, a sign may lead, and a
    single underscore may separate two digits.  Digits and white space
    outside ASCII, which CPython accepts as well, and the limit recent
    releases put on the number of digits of an [int] literal, are left out:
    a text that is a literal here is one for CPython, of the same value (the
    limit on digits lifted), and no property below says of a text that it is
    not a literal, the ASCII samples apart. *)

Definition is_space (c : ascii) : bool :=
  let n := nat_of_ascii c in
  ((9 <=? n) && (n <=? 13) || (n =? 32))%nat.

Definition is_digit (c : ascii) : bool :=
  let n := nat_of_ascii c in ((48 <=? n) && (n <=? 57))%nat.

Definition digit_val (c : ascii) : Z := (Z.of_nat (nat_of_ascii c) - 48)%Z.

Fixpoint lstrip_space (s : string) : string :=
  match s with
  | EmptyString => EmptyString
  | String a s' => if is_space a then lstrip_space s' else s
  end.

Fixpoint rstrip_space (s : string) : string :=
  match s with
  | EmptyString => EmptyString
  | String a s' =>
      match rstrip_space s' with
      | EmptyString => if is_space a then EmptyString else String a EmptyString
      | r => String a r
      end
  end.

Definition strip_space (s : string) : string := rstrip_space (lstrip_space s).

(** Drops the underscores of a literal, provided each one stands between two
    digits; [prev] tells whether the character before [s] was a digit. *)
Fixpoint drop_underscores (prev : bool) (s : string) : option string :=
  match s with
  | EmptyString => Some EmptyString
  | String a s' =>
      if Ascii.eqb a "_" then
        match s' with
        | String b _ =>
            if prev && is_digit b then drop_underscores false s' else None
        | EmptyString => None
        end
      else option_map (String a) (drop_underscores (is_digit a) s')
  end.

(** Reads the longest prefix of digits: its value continuing [acc], the
    number of digits read, and the rest of the text. *)
Fixpoint digits (s : string) (acc : Z) (n : nat) : Z * nat * string :=
  match s with
  | String a s' =>
      if is_digit a then digits s' (10 * acc + digit_val a)%Z (S n)
      else (acc, n, s)
  | EmptyString => (acc, n, s)
  end.

(** An optional sign: [true] for a minus. *)
Definition sign (s : string) : bool * string :=
  match s with
  | String "-" s' => (true, s')
  | String "+" s' => (false, s')
  | _ => (false, s)
  end.

(** [int(s)], base 10. *)
Definition int (s : string) : result Z :=
  match drop_underscores false (strip_space s) with
  | None => Raise ValueError
  | Some t =>
      let '(neg, t1) := sign t in
      match digits t1 0%Z 0 with
      | (v, S _, EmptyString) => Ok (if neg then Z.opp v else v)
      | _ => Raise ValueError
      end
  end.

(** Binary64: 53 bits of precision, exponents below 1024. *)
Definition float : Set := spec_float.
Definition prec : Z := 53%Z.
Definition emax : Z := 1024%Z.

(** The binary64 value nearest to [(-1)^neg * m * 10^e], ties to even. *)
Definition float_of_decimal (neg : bool) (m : Z) (e : Z) : float :=
  match m with
  | Zpos p =>
      match e with
      | Zneg k =>
          SFdiv prec emax (S754_finite neg p 0%Z)
                          (S754_finite false (Pos.pow 10 k) 0%Z)
      | _ => binary_round prec emax neg (p * Z.to_pos (10 ^ e)) 0%Z
      end
  | _ => S754_zero neg
  end.

Definition lower (c : ascii) : ascii :=
  let n := nat_of_ascii c in
  if ((65 <=? n) && (n <=? 90))%nat then ascii_of_nat (n + 32) else c.

Fixpoint lowercase (s : string) : string :=
  match s with
  | EmptyString => EmptyString
  | String a s' => String (lower a) (lowercase s')
  end.

(** The exponent part of a decimal literal, which must end the text. *)
Definition exponent (s : string) : option Z :=
  match s with
  | EmptyString => Some 0%Z
  | String a s' =>
      if Ascii.eqb (lower a) "e" then
        let '(neg, t) := sign s' in
        match digits t 0%Z 0 with
        | (v, S _, EmptyString) => Some (if neg then Z.opp v else v)
        | _ => None
        end
      else None
  end.

(** [float(s)]. *)
Definition float_of_string (s : string) : result float :=
  match drop_underscores false (strip_space s) with
  | None => Raise ValueError
  | Some t =>
      let '(neg, t1) := sign t in
      let w := lowercase t1 in
      if (w =? "inf") || (w =? "infinity") then Ok (S754_infinity neg)
      else if w =? "nan" then Ok S754_nan
      else
        let '(i, ni, t2) := digits t1 0%Z 0 in
        let '(m, nf, t3) :=
          match t2 with
          | String "." t2' => digits t2' i 0
          | _ => (i, 0%nat, t2)
          end in
        match (ni + nf)%nat, exponent t3 with
        | S _, Some x => Ok (float_of_decimal neg m (x - Z.of_nat nf)%Z)
        | _, _ => Raise ValueError
        end
  end.

(** The binary64 value of an integer. *)
Definition float_of_Z (z : Z) : float := binary_normalize prec emax z 0%Z false.

End Py.

(** ** The feed entry and the station record *)

(** One item of the feed, as [feedparser] hands it over. *)
Record Entry : Set := {
  title : string;
  summary : string
}.

(** The attributes of a [_WeatherStationData] object; [None] is Python's
    [None], the state [__init__] leaves every attribute in. *)
Record _WeatherStationData : Set := Station {
  _stationName : option string;
  _stationID : option Z;
  _tempVal : option Py.float;
  _tempUnits : option string;
  _pressureVal : option Py.float;
  _pressureUnits : option string;
  _windDirection : option string;
  _windSpeedVal : option Py.float;
  _windSpeedUnits : option string;
  _humidityVal : option Py.float;
  _humidityUnits : option string;
  _weatherDescription : option string;
  _weatherDescriptionID : option Z;
  _snowThicknessVal : option Py.float;
  _snowThicknessUnits : option string
}.

(** [_WeatherStationData.__init__]. *)
Definition __init__ : _WeatherStationData := {|
  _stationName := None;
  _stationID := None;
  _tempVal := None;
  _tempUnits := None;
  _pressureVal := None;
  _pressureUnits := None;
  _windDirection := None;
  _windSpeedVal := None;
  _windSpeedUnits := None;
  _humidityVal := None;
  _humidityUnits := None;
  _weatherDescription := None;
  _weatherDescriptionID := None;
  _snowThicknessVal := None;
  _snowThicknessUnits := None
|}.

(** Attribute assignment [self._attr = v], one function per attribute. *)
Module Assign.

Definition _stationName (v : string) (o : _WeatherStationData) :=
  let 'Station _ b c d e f g h i j k l m n p := o in
  Station (Some v) b c d e f g h i j k l m n p.

Definition _stationID (v : Z) (o : _WeatherStationData) :=
  let 'Station a _ c d e f g h i j k l m n p := o in
  Station a (Some v) c d e f g h i j k l m n p.

Definition _tempVal (v : Py.float) (o : _WeatherStationData) :=
  let 'Station a b _ d e f g h i j k l m n p := o in
  Station a b (Some v) d e f g h i j k l m n p.

Definition _tempUnits (v : string) (o : _WeatherStationData) :=
  let 'Station a b c _ e f g h i j k l m n p := o in
  Station a b c (Some v) e f g h i j k l m n p.

Definition _pressureVal (v : Py.float) (o : _WeatherStationData) :=
  let 'Station a b c d _ f g h i j k l m n p := o in
  Station a b c d (Some v) f g h i j k l m n p.

Definition _pressureUnits (v : string) (o : _WeatherStationData) :=
  let 'Station a b c d e _ g h i j k l m n p := o in
  Station a b c d e (Some v) g h i j k l m n p.

Definition _windDirection (v : string) (o : _WeatherStationData) :=
  let 'Station a b c d e f _ h i j k l m n p := o in
  Station a b c d e f (Some v) h i j k l m n p.

Definition _windSpeedVal (v : Py.float) (o : _WeatherStationData) :=
  let 'Station a b c d e f g _ i j k l m n p := o in
  Station a b c d e f g (Some v) i j k l m n p.

Definition _windSpeedUnits (v : string) (o : _WeatherStationData) :=
  let 'Station a b c d e f g h _ j k l m n p := o in
  Station a b c d e f g h (Some v) j k l m n p.

Definition _humidityVal (v : Py.float) (o : _WeatherStationData) :=
  let 'Station a b c d e f g h i _ k l m n p := o in
  Station a b c d e f g h i (Some v) k l m n p.

Definition _humidityUnits (v : string) (o : _WeatherStationData) :=
  let 'Station a b c d e f g h i j _ l m n p := o in
  Station a b c d e f g h i j (Some v) l m n p.

Definition _weatherDescription (v : string) (o : _WeatherStationData) :=
  let 'Station a b c d e f g h i j k _ m n p := o in
  Station a b c d e f g h i j k (Some v) m n p.

Definition _weatherDescriptionID (v : Z) (o : _WeatherStationData) :=
  let 'Station a b c d e f g h i j k l _ n p := o in
  Station a b c d e f g h i j k l (Some v) n p.

Definition _snowThicknessVal (v : Py.float) (o : _WeatherStationData) :=
  let 'Station a b c d e f g h i j k l m _ p := o in
  Station a b c d e f g h i j k l m (Some v) p.

Definition _snowThicknessUnits (v : string) (o : _WeatherStationData) :=
  let 'Station a b c d e f g h i j k l m n _ := o in
  Station a b c d e f g h i j k l m n (Some v).

End Assign.

(** ** [_extract_data_from_entry] *)

(** The statements of the function in source order.  Every subscript is a
    [Py.index], every [int()] and [float()] may raise, and the attributes of
    [observed] are assigned one after the other; an exception abandons the
    local object. *)
Definition _extract_data_from_entry (entry : Entry)
  : result _WeatherStationData :=
  let observed := __init__ in
  let csvData := Py.split ";" (summary entry) in
  (* name = entry.title.split(':')[1] *)
  name <- Py.index (Py.split ":" (title entry)) 1 ;;
  (* id = csvData[0].split(':')[1], and so on for each segment *)
  s0 <- Py.index csvData 0 ;;
  id <- Py.index (Py.split ":" s0) 1 ;;
  s1 <- Py.index csvData 1 ;;
  t1 <- Py.index (Py.split ":" s1) 1 ;;
  let temp := Py.split " " (Py.strip " " t1) in
  s2 <- Py.index csvData 2 ;;
  t2 <- Py.index (Py.split ":" s2) 1 ;;
  let press := Py.split " " (Py.strip " " t2) in
  s3 <- Py.index csvData 3 ;;
  windd <- Py.index (Py.split ":" s3) 1 ;;
  (* if '-' == windd.strip(' '): winds = ['0', 'm/s'] *)
  winds <-
    (if "-" =? Py.strip " " windd then Ok ["0"; "m/s"]
     else
       s4 <- Py.index csvData 4 ;;
       t4 <- Py.index (Py.split ":" s4) 1 ;;
       Ok (Py.split " " (Py.strip " " t4))) ;;
  s5 <- Py.index csvData 5 ;;
  t5 <- Py.index (Py.split ":" s5) 1 ;;
  let hum := Py.split " " (Py.strip " " t5) in
  s6 <- Py.index csvData 6 ;;
  desc <- Py.index (Py.split ":" s6) 1 ;;
  s7 <- Py.index csvData 7 ;;
  t7 <- Py.index (Py.split ":" s7) 1 ;;
  (* if 'cm' == csvData[7].split(':')[1].strip(' '): snow = ['0', 'cm'] *)
  snow <-
    (if "cm" =? Py.strip " " t7 then Ok ["0"; "cm"]
     else
       s7' <- Py.index csvData 7 ;;
       t7' <- Py.index (Py.split ":" s7') 1 ;;
       Ok (Py.split " " (Py.strip " " t7'))) ;;
  s8 <- Py.index csvData 8 ;;
  descid <- Py.index (Py.split ":" s8) 1 ;;
  (* observed._stationName = name.strip(' '), and the 14 assignments after *)
  let observed := Assign._stationName (Py.strip " " name) observed in
  v <- Py.int (Py.strip " " id) ;;
  let observed := Assign._stationID v observed in
  x <- Py.index temp 0 ;;
  v <- Py.float_of_string x ;;
  let observed := Assign._tempVal v observed in
  x <- Py.index temp 1 ;;
  let observed := Assign._tempUnits x observed in
  x <- Py.index press 0 ;;
  v <- Py.float_of_string x ;;
  let observed := Assign._pressureVal v observed in
  x <- Py.index press 1 ;;
  let observed := Assign._pressureUnits x observed in
  let observed := Assign._windDirection (Py.strip " " windd) observed in
  x <- Py.index winds 0 ;;
  v <- Py.float_of_string x ;;
  let observed := Assign._windSpeedVal v observed in
  x <- Py.index winds 1 ;;
  let observed := Assign._windSpeedUnits x observed in
  x <- Py.index hum 0 ;;
  v <- Py.float_of_string x ;;
  let observed := Assign._humidityVal v observed in
  x <- Py.index hum 1 ;;
  let observed := Assign._humidityUnits x observed in
  let observed := Assign._weatherDescription (Py.strip " " desc) observed in
  v <- Py.int (Py.strip " " descid) ;;
  let observed := Assign._weatherDescriptionID v observed in
  x <- Py.index snow 0 ;;
  v <- Py.float_of_string x ;;
  let observed := Assign._snowThicknessVal v observed in
  x <- Py.index snow 1 ;;
  let observed := Assign._snowThicknessUnits x observed in
  Ok observed.

(** ** [WeatherSerbiaFeed]

    The query methods read [self._feed.entries], the list of entries of the
    last parse; the models take that list as their argument. *)

(** [stations]: the loop appends to the list [stations]. *)
Fixpoint stations_loop (entries : list Entry) (stations : list string)
  : result (list string) :=
  match entries with
  | [] => Ok stations
  | entry :: rest =>
      station <- Py.index (Py.split ":" (title entry)) 1 ;;
      stations_loop rest (stations ++ [Py.strip " " station])
  end.

Definition stations (entries : list Entry) : result (list string) :=
  stations_loop entries [].

(** [observed_data]. *)
Fixpoint observed_data_loop (entries : list Entry)
    (stations : list _WeatherStationData) : result (list _WeatherStationData) :=
  match entries with
  | [] => Ok stations
  | entry :: rest =>
      o <- _extract_data_from_entry entry ;;
      observed_data_loop rest (stations ++ [o])
  end.

Definition observed_data (entries : list Entry)
  : result (list _WeatherStationData) :=
  observed_data_loop entries [].

(** [observed_data_by_station]: the loop leaves at the first entry whose name
    is [stationName]; [observed] is still [None] when the loop runs out. *)
Fixpoint observed_data_by_station_loop (entries : list Entry)
    (stationName : string) (observed : option _WeatherStationData)
  : result (option _WeatherStationData) :=
  match entries with
  | [] => Ok observed
  | entry :: rest =>
      t <- Py.index (Py.split ":" (title entry)) 1 ;;
      let name := Py.strip " " t in
      if name =? stationName then
        o <- _extract_data_from_entry entry ;;
        Ok (Some o)
      else observed_data_by_station_loop rest stationName observed
  end.

Definition observed_data_by_station (entries : list Entry)
    (stationName : string) : result (option _WeatherStationData) :=
  observed_data_by_station_loop entries stationName None.

(** ** Export views of a record *)

(** A Python value of one of the types an attribute can hold. *)
Inductive PyVal : Set :=
| PyNone
| PyInt (z : Z)
| PyFloat (x : Py.float)
| PyStr (s : string).

Definition of_str (o : option string) : PyVal :=
  match o with Some s => PyStr s | None => PyNone end.

Definition of_int (o : option Z) : PyVal :=
  match o with Some z => PyInt z | None => PyNone end.

Definition of_float (o : option Py.float) : PyVal :=
  match o with Some x => PyFloat x | None => PyNone end.

(** A dictionary display with text keys, in the order the items are written;
    the keys below are pairwise distinct, so no item overrides another. *)
Definition PyDict : Set := list (string * PyVal).

(** [_WeatherStationData.as_dictionary]. *)
Definition as_dictionary (self : _WeatherStationData) : PyDict :=
  [ ("stationName", of_str (_stationName self));
    ("stationID", of_int (_stationID self));
    ("tempVal", of_float (_tempVal self));
    ("tempUnits", of_str (_tempUnits self));
    ("pressureVal", of_float (_pressureVal self));
    ("pressureUnits", of_str (_pressureUnits self));
    ("windDirection", of_str (_windDirection self));
    ("windSpeedVal", of_float (_windSpeedVal self));
    ("windSpeedUnits", of_str (_windSpeedUnits self));
    ("humidityVal", of_float (_humidityVal self));
    ("humidityUnits", of_str (_humidityUnits self));
    ("weatherDescription", of_str (_weatherDescription self));
    ("weatherDescriptionID", of_int (_weatherDescriptionID self));
    ("snowThicknessVal", of_float (_snowThicknessVal self));
    ("snowThicknessUnits", of_str (_snowThicknessUnits self)) ].

Section Json.

(** [json.dumps] of the standard library, which the module calls and does
    not define. *)
Variable dumps : PyDict -> string.

(** [_WeatherStationData.as_json]: the method writes the dictionary display
    out a second time and hands it to [json.dumps]. *)
Definition as_json (self : _WeatherStationData) : string :=
  dumps
    [ ("stationName", of_str (_stationName self));
      ("stationID", of_int (_stationID self));
      ("tempVal", of_float (_tempVal self));
      ("tempUnits", of_str (_tempUnits self));
      ("pressureVal", of_float (_pressureVal self));
      ("pressureUnits", of_str (_pressureUnits self));
      ("windDirection", of_str (_windDirection self));
      ("windSpeedVal", of_float (_windSpeedVal self));
      ("windSpeedUnits", of_str (_windSpeedUnits self));
      ("humidityVal", of_float (_humidityVal self));
      ("humidityUnits", of_str (_humidityUnits self));
      ("weatherDescription", of_str (_weatherDescription self));
      ("weatherDescriptionID", of_int (_weatherDescriptionID self));
      ("snowThicknessVal", of_float (_snowThicknessVal self));
      ("snowThicknessUnits", of_str (_snowThicknessUnits self)) ].

End Json.

(** ** The vocabulary of the specification *)

(** The text after the first occurrence of [c], if there is one. *)
Fixpoint after_first (c : ascii) (s : string) : option string :=
  match s with
  | EmptyString => None
  | String a s' => if Ascii.eqb a c then Some s' else after_first c s'
  end.

(** The text before the first occurrence of [c]; all of it if there is none. *)
Fixpoint upto (c : ascii) (s : string) : string :=
  match s with
  | EmptyString => EmptyString
  | String a s' => if Ascii.eqb a c then EmptyString else String a (upto c s')
  end.

(** The station name a title carries: the text between its first colon and
    the next one (or the end), without the surrounding spaces. *)
Definition derived_name (t : string) : option string :=
  match after_first ":" t with
  | Some rest => Some (Py.strip " " (upto ":" rest))
  | None => None
  end.

(** The value portion of a ["Label: value"] segment. *)
Definition value_portion (seg : string) : option string := after_first ":" seg.

(** Every attribute differs from [None]. *)
Definition populated (r : _WeatherStationData) : bool :=
  match r with
  | Station (Some _) (Some _) (Some _) (Some _) (Some _) (Some _) (Some _)
            (Some _) (Some _) (Some _) (Some _) (Some _) (Some _) (Some _)
            (Some _) => true
  | _ => false
  end.

(** Whether a query name is the name an entry's title carries. *)
Definition names (stationName : string) (entry : Entry) : bool :=
  match derived_name (title entry) with
  | Some n => n =? stationName
  | None => false
  end.

(** The entries a search for [stationName] visits: those up to and including
    the first one the name belongs to, all of them when there is none. *)
Fixpoint visited (stationName : string) (entries : list Entry) : list Entry :=
  match entries with
  | [] => []
  | entry :: rest =>
      entry :: (if names stationName entry then [] else visited stationName rest)
  end.

(** ** Sample entries *)

Definition belgrade : Entry := {|
  title := "Station: Belgrade";
  summary := "Station ID: 13274; Temperature: 5 °C; Pressure: 1013.2 hPa; Wind direction: -; Wind speed: 0 m/s; Humidity: 80 %; Weather description: Cloudy; Snow: cm; Weather description ID: 3;"
|}.

Definition belgrade_observed : _WeatherStationData := {|
  _stationName := Some "Belgrade";
  _stationID := Some 13274%Z;
  _tempVal := Some (Py.float_of_Z 5);
  _tempUnits := Some "°C";
  _pressureVal := Some (Py.float_of_decimal false 10132 (-1));
  _pressureUnits := Some "hPa";
  _windDirection := Some "-";
  _windSpeedVal := Some (Py.float_of_Z 0);
  _windSpeedUnits := Some "m/s";
  _humidityVal := Some (Py.float_of_Z 80);
  _humidityUnits := Some "%";
  _weatherDescription := Some "Cloudy";
  _weatherDescriptionID := Some 3%Z;
  _snowThicknessVal := Some (Py.float_of_Z 0);
  _snowThicknessUnits := Some "cm"
|}.

(** The same readings under a title with a colon inside the name. *)
Definition novi_sad : Entry := {|
  title := "Station: Novi: Sad";
  summary := summary belgrade
|}.

(** The same readings under a title without a colon. *)
Definition stationbelgrade : Entry := {|
  title := "StationBelgrade";
  summary := summary belgrade
|}.

(** A summary that stops after the temperature. *)
Definition short_summary : Entry := {|
  title := "Station: Belgrade";
  summary := "Station ID: 13274; Temperature: 5 °C"
|}.

(** [belgrade] with a wind-speed segment that is no measurement at all. *)
Definition belgrade_calm : Entry := {|
  title := "Station: Belgrade";
  summary := "Station ID: 13274; Temperature: 5 °C; Pressure: 1013.2 hPa; Wind direction: -; no wind today; Humidity: 80 %; Weather description: Cloudy; Snow: cm; Weather description ID: 3;"
|}.

(** A stand-in for the pair [json.dumps] and [json.loads], to run the export
    views on the sample record: the encoder writes the keys down, the decoder
    recognises the one text it knows. *)
Definition sample_dumps (d : PyDict) : string := Py.join "," (map fst d).

Definition sample_loads (s : string) : option PyDict :=
  if s =? sample_dumps (as_dictionary belgrade_observed)
  then Some (as_dictionary belgrade_observed)
  else None.

(** The readings of [belgrade] under other labels, without the closing
    semicolon. *)
Definition belgrade_relabelled : Entry := {|
  title := "Grad: Belgrade";
  summary := "a: 13274;b: 5 °C;c: 1013.2 hPa;d: -;e;f: 80 %;g: Cloudy;h: cm;i: 3"
|}.

(** The readings of [belgrade], calm and without snow, but with a temperature
    that is no number. *)
Definition belgrade_no_temperature : Entry := {|
  title := "Station: Belgrade";
  summary := "Station ID: 13274; Temperature: n/a; Pressure: 1013.2 hPa; Wind direction: -; Wind speed: 0 m/s; Humidity: 80 %; Weather description: Cloudy; Snow: cm; Weather description ID: 3;"
|}.

(** The text the program reads from segment [i] of a summary:
    [csvData[i].split(':')[1]]. *)
Definition piece (csvData : list string) (i : nat) : result string :=
  s <- Py.index csvData i ;; Py.index (Py.split ":" s) 1.

(** The value and the unit the program takes from the tokens of a
    measurement: [float(tokens[0])] and [tokens[1]], in that order. *)
Definition measure (tokens : list string) : result (Py.float * string) :=
  x <- Py.index tokens 0 ;;
  v <- Py.float_of_string x ;;
  u <- Py.index tokens 1 ;;
  Ok (v, u).

(** The wind speed and its unit, as the program settles them: zero metres a
    second when the wind direction [windd] strips to "-", the measurement of
    segment 4 otherwise. *)
Definition wind_reading (csvData : list string) (windd : string)
  : result (Py.float * string) :=
  if "-" =? Py.strip " " windd then Ok (S754_zero false, "m/s")
  else t4 <- piece csvData 4 ;; measure (Py.split " " (Py.strip " " t4)).

(** The snow thickness and its unit, as the program settles them: zero
    centimetres when the value [t7] of segment 7 strips to "cm", its
    measurement otherwise. *)
Definition snow_reading (t7 : string) : result (Py.float * string) :=
  if "cm" =? Py.strip " " t7 then Ok (S754_zero false, "cm")
  else measure (Py.split " " (Py.strip " " t7)).

(** Whether a record carries the station name [stationName]. *)
Definition named (stationName : string) (r : _WeatherStationData) : bool :=
  match _stationName r with
  | Some n => n =? stationName
  | None => false
  end.

(** ** Console output: [display_data] and the command-line action *)

Definition newline : string := String (ascii_of_nat 10) EmptyString.

Definition quote : string := String (ascii_of_nat 34) EmptyString.

(** [str(z)] for an [int]. *)
Definition str_int (z : Z) : string :=
  DecimalString.NilZero.string_of_int (Z.to_int z).

(** The order of [str] values is the order of their code points, which is
    the order of their UTF-8 bytes. *)
Module StringOrder <: Orders.TotalLeBool.
Definition t : Type := string.
Definition leb : t -> t -> bool := String.leb.
Lemma leb_total : forall x y : t, leb x y = true \/ leb y x = true.
Proof. exact String.leb_total. Qed.
End StringOrder.

Module StringSort := Mergesort.Sort StringOrder.

(** [sorted(l)] for a list of [str]. *)
Definition sorted (l : list string) : list string := StringSort.sort l.

(** What [feedparser.parse] returns, as far as the program reads it.  The
    entries are those of type [Entry], which carry a title and a summary; an
    item that [feedparser] delivers without one of the two, on which reading
    the attribute raises [AttributeError], is outside this model. *)
Record FeedParserDict : Set := {
  bozo : Z;
  entries : list Entry
}.

(** The class [WeatherSerbiaFeed]. *)
Module Feed.

(** A method called before [parse] reads [None.entries]. *)
Inductive error : Set :=
| AttributeError
| Builtin (x : exn).

Inductive outcome (A : Type) : Type :=
| Returns (a : A)
| Raises (x : error).

Arguments Returns {A} a.
Arguments Raises {A} x.

Record WeatherSerbiaFeed : Set := {
  _url : string;
  _feed : option FeedParserDict;
  _status : option Z
}.

Definition __init__ : WeatherSerbiaFeed := {|
  _url := "http://www.hidmet.gov.rs/eng/osmotreni/index.rss";
  _feed := None;
  _status := None
|}.

(** [parse]; [fetch] is [feedparser.parse], which answers for the network. *)
Definition parse (fetch : string -> FeedParserDict) (self : WeatherSerbiaFeed)
  : WeatherSerbiaFeed :=
  let feed := fetch (_url self) in
  {| _url := _url self; _feed := Some feed; _status := Some (bozo feed) |}.

Definition update (fetch : string -> FeedParserDict)
    (self : WeatherSerbiaFeed) : WeatherSerbiaFeed :=
  parse fetch self.

Definition url (self : WeatherSerbiaFeed) : string := _url self.

Definition status (self : WeatherSerbiaFeed) : option Z := _status self.

(** A method body run on [self._feed.entries]. *)
Definition on_entries {A : Type} (body : list Entry -> result A)
    (self : WeatherSerbiaFeed) : outcome A :=
  match _feed self with
  | None => Raises AttributeError
  | Some feed =>
      match body (entries feed) with
      | Ok a => Returns a
      | Raise x => Raises (Builtin x)
      end
  end.

Definition stations (self : WeatherSerbiaFeed) : outcome (list string) :=
  on_entries (fun entries => stations entries) self.

Definition observed_data (self : WeatherSerbiaFeed)
  : outcome (list _WeatherStationData) :=
  on_entries (fun entries => observed_data entries) self.

Definition observed_data_by_station (self : WeatherSerbiaFeed)
    (stationName : string) : outcome (option _WeatherStationData) :=
  on_entries (fun entries => observed_data_by_station entries stationName) self.

End Feed.

(** How a command-line action ends: with the call of [exitf], or with an
    exception nobody catches. *)
Inductive ending : Set :=
| Exit
| Uncaught (x : Feed.error).

Section Console.

(** [str(x)] for a [float], library code: the text is only printed. *)
Variable str_float : Py.float -> string.

(** The text [format] puts in the place of an attribute; [None] prints as
    the word. *)
Definition fmt_str (a : option string) : string :=
  match a with Some s => s | None => "None" end.

Definition fmt_int (a : option Z) : string :=
  match a with Some z => str_int z | None => "None" end.

Definition fmt_float (a : option Py.float) : string :=
  match a with Some x => str_float x | None => "None" end.

(** [0 != a]. *)
Definition nonzero (a : option Py.float) : bool :=
  match a with
  | Some x => negb (SFeqb x (S754_zero false))
  | None => true
  end.

(** [_WeatherStationData.display_data]: the lines printed. *)
Definition display_data (self : _WeatherStationData) : list string :=
  [ ("       station: " ++ fmt_str (_stationName self)
       ++ " (" ++ fmt_int (_stationID self) ++ ")")%string;
    ("   description: " ++ fmt_str (_weatherDescription self)
       ++ " (" ++ fmt_int (_weatherDescriptionID self) ++ ")")%string;
    ("   temperature: " ++ fmt_float (_tempVal self)
       ++ " " ++ fmt_str (_tempUnits self))%string;
    ("      pressure: " ++ fmt_float (_pressureVal self)
       ++ " " ++ fmt_str (_pressureUnits self))%string;
    ("      humidity: " ++ fmt_float (_humidityVal self)
       ++ " " ++ fmt_str (_humidityUnits self))%string ]
  ++ (if nonzero (_windSpeedVal self)
      then [ ("wind direction: " ++ fmt_str (_windDirection self)
                ++ ", speed: " ++ fmt_float (_windSpeedVal self)
                ++ " " ++ fmt_str (_windSpeedUnits self))%string ]
      else [])
  ++ (if nonzero (_snowThicknessVal self)
      then [ ("          snow: " ++ fmt_float (_snowThicknessVal self)
                ++ " " ++ fmt_str (_snowThicknessUnits self))%string ]
      else []).

(** [0 != feed.status]. *)
Definition failed (status : option Z) : bool :=
  match status with
  | Some z => negb (z =? 0)%Z
  | None => true
  end.

(** [FetchData.execute]: the lines printed and how the action ends.  The
    attributes [_programName] and [_station] are the arguments. *)
Definition execute (fetch : string -> FeedParserDict)
    (_programName _station : string) : list string * ending :=
  let feed := Feed.parse fetch Feed.__init__ in
  if failed (Feed.status feed) then
    ([(_programName ++ ": Error " ++ fmt_int (Feed.status feed)
         ++ newline)%string],
     Exit)
  else if "all" =? _station then
    match Feed.stations feed with
    | Feed.Raises x => ([], Uncaught x)
    | Feed.Returns l => (sorted l ++ [newline], Exit)
    end
  else
    match Feed.observed_data_by_station feed _station with
    | Feed.Raises x => ([], Uncaught x)
    | Feed.Returns None =>
        let said :=
          [ (_programName ++ ": Station " ++ quote ++ _station ++ quote
               ++ " not available.")%string;
            "Weather stations available for:" ] in
        match Feed.stations feed with
        | Feed.Raises x => (said, Uncaught x)
        | Feed.Returns l => (said ++ sorted l ++ [newline], Exit)
        end
    | Feed.Returns (Some data) => (display_data data ++ [newline], Exit)
    end.

End Console.

(** The states of a feed object that calls of [parse] and [update] lead to. *)
Inductive reachable : Feed.WeatherSerbiaFeed -> Prop :=
| reach_init : reachable Feed.__init__
| reach_parse (fetch : string -> FeedParserDict) (self : Feed.WeatherSerbiaFeed) :
    reachable self -> reachable (Feed.parse fetch self)
| reach_update (fetch : string -> FeedParserDict)
    (self : Feed.WeatherSerbiaFeed) :
    reachable self -> reachable (Feed.update fetch self).

(** A feed that answers well with two stations, and a stand-in for the text
    of a float, to run the action on. *)
Definition sample_fetch (url : string) : FeedParserDict :=
  {| bozo := 0; entries := [belgrade; novi_sad] |}.

Definition sample_str_float (x : Py.float) : string := "#".

(** ** The command-line application: [weatherserbiacli.py] *)

(** [_format_epilog]. *)
Definition _format_epilog (epilogAddition bugMail : option string)
  : option string :=
  match epilogAddition, bugMail with
  | None, None => None
  | _, _ =>
      let fmtMail :=
        match bugMail with
        | Some m => Some ("Report bugs to <" ++ m ++ ">.")%string
        | None => None
        end in
      match epilogAddition, fmtMail with
      | None, _ => fmtMail
      | Some a, None => Some a
      | Some a, Some mail => Some (a ++ newline ++ newline ++ mail)%string
      end
  end.

(** The argument groups of [CommandLineApp]. *)
Module App.

(** [NameError], or one of the exceptions of the feed module. *)
Inductive error : Set :=
| NameError
| Builtin (x : exn).

Inductive outcome (A : Type) : Type :=
| Returns (a : A)
| Raises (x : error).

Arguments Returns {A} a.
Arguments Raises {A} x.

(** A keyword argument handed to [add_argument]. *)
Inductive PyArg : Set :=
| ANone
| AStr (s : string)
| ABool (b : bool)
| AInt (z : Z)
| AType (name : string).

(** An argument group of [argparse], as far as the application reads it. *)
Record Group : Set := {
  title : string;
  description : option string
}.

(** [kwargs[key]], if [key in kwargs]. *)
Fixpoint get (key : string) (kwargs : list (string * PyArg)) : option PyArg :=
  match kwargs with
  | [] => None
  | (k, v) :: rest => if k =? key then Some v else get key rest
  end.

(** [title == item.title] for a keyword value [title]. *)
Definition is_title (v : PyArg) (item : Group) : bool :=
  match v with
  | AStr s => s =? title item
  | _ => false
  end.

(** [add_argument_group]: the new group and the list [_argumentGroups]
    after the call. *)
Definition add_argument_group (title description : option string)
    (_argumentGroups : list Group) : outcome (Group * list Group) :=
  match title with
  | None => Raises NameError
  | Some t =>
      let group := {| title := t; description := description |} in
      Returns (group, _argumentGroups ++ [group])
  end.

(** [_group_by_title]: the loop leaves at the first group of the title. *)
Fixpoint _group_by_title_loop (items : list Group) (title : PyArg)
    (group : option Group) : option Group :=
  match items with
  | [] => group
  | item :: rest =>
      if is_title title item then Some item
      else _group_by_title_loop rest title group
  end.

Definition _group_by_title (_argumentGroups : list Group) (title : PyArg)
  : option Group :=
  _group_by_title_loop _argumentGroups title None.

(** What [add_argument] asks of [argparse]: the call it makes, on the parser
    or on a group, with the arguments it passes on. *)
Inductive Call : Set :=
| OnParser (args : list string) (kwargs : list (string * PyArg))
| OnGroup (group : Group) (args : list string)
    (kwargsr : list (string * PyArg)).

(** [add_argument] up to the call it makes: [Returns call] stands for the
    method reaching the call [call] of [argparse], which it then makes (see
    [add_argument_run]); [Raises] for its own [raise]. *)
Definition add_argument (args : list string) (kwargs : list (string * PyArg))
    (_argumentGroups : list Group) : outcome Call :=
  match get "group" kwargs with
  | None | Some ANone => Returns (OnParser args kwargs)
  | Some v =>
      match _group_by_title _argumentGroups v with
      | None => Raises (Builtin ValueError)
      | Some group =>
          let kwargsr :=
            filter (fun kv => negb ("group" =? fst kv)) kwargs in
          Returns (OnGroup group args kwargsr)
      end
  end.

End App.

(** How a call of [add_argument] goes: the method refuses it with an
    exception of its own, before any call of [argparse], or it makes one call
    of [argparse] and ends as that call ends, with a return ([None]) or with
    the exception the library raises. *)
Inductive Performed (E : Type) : Type :=
| Refused (x : App.error)
| Forwarded (call : App.Call) (raised : option E).

Arguments Refused {E} x.
Arguments Forwarded {E} call raised.

(** [add_argument] with the call made; [argparse] answers for the library:
    what exception, if any, the call it is handed raises. *)
Definition add_argument_run {E : Type} (argparse : App.Call -> option E)
    (args : list string) (kwargs : list (string * App.PyArg))
    (_argumentGroups : list App.Group) : Performed E :=
  match App.add_argument args kwargs _argumentGroups with
  | App.Raises x => Refused x
  | App.Returns call => Forwarded call (argparse call)
  end.

(** * Properties *)

(** ** Splitting and stripping *)

Section Strings.

Variable c : ascii.

Lemma split_unfold (s : string) :
  Py.split c s =
  upto c s :: match after_first c s with
              | Some rest => Py.split c rest
              | None => []
              end.
Proof.
  induction s as [|a s IH]; simpl; [reflexivity|].
  destruct (Ascii.eqb a c); [reflexivity|].
  rewrite IH. reflexivity.
Qed.

Lemma index_split_0 (s : string) : Py.index (Py.split c s) 0 = Ok (upto c s).
Proof. rewrite split_unfold. reflexivity. Qed.

Lemma index_split_1 (s : string) :
  Py.index (Py.split c s) 1 =
  match after_first c s with
  | Some rest => Ok (upto c rest)
  | None => Raise IndexError
  end.
Proof.
  rewrite split_unfold. destruct (after_first c s) as [rest|]; [|reflexivity].
  rewrite split_unfold. reflexivity.
Qed.

Lemma length_split (s : string) : length (Py.split c s) = S (Py.count c s).
Proof.
  induction s as [|a s IH]; simpl; [reflexivity|].
  destruct (Ascii.eqb a c); simpl; [now rewrite IH|].
  destruct (Py.split c s); simpl in *; lia.
Qed.

Lemma after_first_none (s : string) :
  after_first c s = None <-> Py.count c s = 0.
Proof.
  induction s as [|a s IH]; simpl; [tauto|].
  destruct (Ascii.eqb a c); simpl; [split; discriminate|exact IH].
Qed.

Lemma upto_no_occurrence (s : string) : Py.count c s = 0 -> upto c s = s.
Proof.
  induction s as [|a s IH]; simpl; [reflexivity|].
  destruct (Ascii.eqb a c); simpl; [discriminate|].
  intros H. now rewrite IH.
Qed.

Lemma count_after_first (s rest : string) :
  after_first c s = Some rest -> Py.count c s = S (Py.count c rest).
Proof.
  induction s as [|a s IH]; simpl; [discriminate|].
  destruct (Ascii.eqb a c); simpl; [now intros [= ->]|exact IH].
Qed.

(** Stripping another character leaves the occurrences of [c] alone. *)
Variable d : ascii.
Hypothesis c_d : Ascii.eqb d c = false.

Lemma count_lstrip (s : string) : Py.count c (Py.lstrip d s) = Py.count c s.
Proof.
  induction s as [|a s IH]; simpl; [reflexivity|].
  destruct (Ascii.eqb a d) eqn:E; [|reflexivity].
  apply Ascii.eqb_eq in E. subst a. rewrite c_d. exact IH.
Qed.

Lemma count_rstrip (s : string) : Py.count c (Py.rstrip d s) = Py.count c s.
Proof.
  induction s as [|a s IH]; simpl; [reflexivity|].
  destruct (Py.rstrip d s) as [|b r] eqn:R.
  - destruct (Ascii.eqb a d) eqn:E.
    + apply Ascii.eqb_eq in E. subst a. rewrite c_d. simpl in *. exact IH.
    + simpl in *. now rewrite <- IH.
  - simpl in *. now rewrite <- IH.
Qed.

Lemma count_strip (s : string) : Py.count c (Py.strip d s) = Py.count c s.
Proof. unfold Py.strip. now rewrite count_rstrip, count_lstrip. Qed.

End Strings.

(** ** The extractor *)

Lemma index_raise {A : Type} (l : list A) (i : nat) (x : exn) :
  Py.index l i = Raise x -> x = IndexError.
Proof. unfold Py.index. destruct (nth_error l i); congruence. Qed.

Lemma index_ok {A : Type} (l : list A) (i : nat) (a : A) :
  Py.index l i = Ok a <-> nth_error l i = Some a.
Proof. unfold Py.index. destruct (nth_error l i); split; congruence. Qed.

Lemma float_of_string_0 : Py.float_of_string "0" = Ok (S754_zero false).
Proof. reflexivity. Qed.

(** One statement of the function at a time: case analysis on the computation
    at the head of the goal [c ;; k = Ok r -> _]. *)
Ltac step :=
  lazymatch goal with
  | |- bind (if ?b then _ else _) _ = _ -> _ =>
      destruct b eqn:?; cbn [bind]
  | |- bind (bind ?c _) _ = _ -> _ =>
      destruct c eqn:?; cbn [bind]; [|intros; discriminate]
  | |- bind ?c _ = _ -> _ =>
      destruct c eqn:?; cbn [bind]; [|intros; discriminate]
  end.

(** The subscripts and conversions of the literals [['0', 'm/s']] and
    [['0', 'cm']]. *)
Ltac literal :=
  repeat match goal with
    | H : Py.index (_ :: _) _ = Ok _ |- _ => cbn in H; injection H as <-
    | H : Py.float_of_string "0" = Ok _ |- _ =>
        rewrite float_of_string_0 in H; injection H as <-
    end.

(** What a successful extraction tells about the entry and the record. *)
Lemma extract_inversion (e : Entry) (r : _WeatherStationData) :
  _extract_data_from_entry e = Ok r ->
  exists name s3 windd s7 t7,
    Py.index (Py.split ":" (title e)) 1 = Ok name /\
    Py.index (Py.split ";" (summary e)) 3 = Ok s3 /\
    Py.index (Py.split ":" s3) 1 = Ok windd /\
    Py.index (Py.split ";" (summary e)) 7 = Ok s7 /\
    Py.index (Py.split ":" s7) 1 = Ok t7 /\
    _stationName r = Some (Py.strip " " name) /\
    _windDirection r = Some (Py.strip " " windd) /\
    (Py.strip " " windd = "-" ->
     _windSpeedVal r = Some (S754_zero false) /\
     _windSpeedUnits r = Some "m/s") /\
    (Py.strip " " t7 = "cm" ->
     _snowThicknessVal r = Some (S754_zero false) /\
     _snowThicknessUnits r = Some "cm") /\
    populated r = true.
Proof.
  unfold _extract_data_from_entry. cbv zeta.
  repeat step.
  all: intros [= <-]; cbn.
  all: do 5 eexists; repeat (split; [eassumption || reflexivity|]).
  all: literal.
  all: split; [intros Hs|split; [intros Hs|reflexivity]].
  all: rewrite Hs in *; try discriminate; split; reflexivity.
Qed.

(** C1: the entry titled "Station: Belgrade" with the summary of the
    specification's example is extracted without error, and the record has
    station name "Belgrade", station ID 13274, temperature 5.0 "°C", wind
    direction "-", wind speed 0.0, snow thickness 0.0 "cm" and weather
    description ID 3. *)
Theorem extract_belgrade :
  exists r,
    _extract_data_from_entry belgrade = Ok r /\
    _stationName r = Some "Belgrade" /\
    _stationID r = Some 13274%Z /\
    _tempVal r = Some (Py.float_of_Z 5) /\
    _tempUnits r = Some "°C" /\
    _windDirection r = Some "-" /\
    _windSpeedVal r = Some (Py.float_of_Z 0) /\
    _snowThicknessVal r = Some (Py.float_of_Z 0) /\
    _snowThicknessUnits r = Some "cm" /\
    _weatherDescriptionID r = Some 3%Z.
Proof.
  exists belgrade_observed. split; [vm_compute; reflexivity|].
  cbn. repeat split.
Qed.

Lemma extract_belgrade_full :
  _extract_data_from_entry belgrade = Ok belgrade_observed.
Proof. vm_compute. reflexivity. Qed.

(** C2, as the program has it: when extraction succeeds on an entry whose
    title has a colon, the station name is the text between the first colon
    of the title and the next one (the end of the title if there is no other),
    without the surrounding spaces; for a title with exactly one colon that is
    all the text after the colon. *)
Theorem station_name_of_title (e : Entry) (r : _WeatherStationData)
    (rest : string) :
  after_first ":" (title e) = Some rest ->
  _extract_data_from_entry e = Ok r ->
  _stationName r = Some (Py.strip " " (upto ":" rest)) /\
  (Py.count ":" (title e) = 1 -> _stationName r = Some (Py.strip " " rest)).
Proof.
  intros Hrest Hr.
  destruct (extract_inversion e r Hr)
    as (name & s3 & windd & s7 & t7 & Hname & _ & _ & _ & _ & Hn & _).
  rewrite index_split_1, Hrest in Hname. injection Hname as <-.
  split; [exact Hn|].
  intros Hc. rewrite (count_after_first _ _ _ Hrest) in Hc.
  rewrite upto_no_occurrence in Hn by lia. exact Hn.
Qed.

Lemma station_name_of_title_witness :
  _stationName belgrade_observed = Some (Py.strip " " (upto ":" " Belgrade")) /\
  (Py.count ":" (title belgrade) = 1 ->
   _stationName belgrade_observed = Some (Py.strip " " " Belgrade")).
Proof.
  apply (station_name_of_title belgrade belgrade_observed " Belgrade").
  - reflexivity.
  - vm_compute. reflexivity.
Defined.

(** C2 fails on a title with two colons: of "Station: Novi: Sad" the program
    keeps "Novi", while the text after the first colon is " Novi: Sad". *)
Lemma station_name_second_colon :
  Py.count ":" (title novi_sad) = 2 /\
  after_first ":" (title novi_sad) = Some " Novi: Sad" /\
  exists r,
    _extract_data_from_entry novi_sad = Ok r /\
    _stationName r = Some "Novi" /\
    _stationName r <> Some (Py.strip " " " Novi: Sad").
Proof.
  split; [reflexivity|]. split; [reflexivity|].
  eexists. split; [vm_compute; reflexivity|].
  split; [reflexivity|]. cbn. discriminate.
Qed.

(** C3, as the program has it: on an entry whose title has no colon the
    extractor raises the built-in [IndexError], whatever the summary holds;
    it returns no record. *)
Theorem title_without_colon (e : Entry) :
  Py.count ":" (title e) = 0 ->
  _extract_data_from_entry e = Raise IndexError.
Proof.
  intros Hc. unfold _extract_data_from_entry. cbv zeta.
  apply after_first_none in Hc.
  rewrite index_split_1, Hc. reflexivity.
Qed.

Lemma title_without_colon_witness :
  _extract_data_from_entry stationbelgrade = Raise IndexError.
Proof. apply (title_without_colon stationbelgrade). reflexivity. Defined.

(** C3 fails on the title "StationBelgrade": what the extractor raises is
    [IndexError]; the program has no error named [MalformedTitle]. *)
Lemma title_without_colon_is_index_error :
  Py.count ":" (title stationbelgrade) = 0 /\
  _extract_data_from_entry stationbelgrade = Raise IndexError /\
  exn_name IndexError <> "MalformedTitle".
Proof.
  split; [reflexivity|]. split; [vm_compute; reflexivity|].
  cbn. discriminate.
Qed.

(** The statements before the first attribute assignment only subscript. *)
Ltac step_index :=
  lazymatch goal with
  | |- bind (if ?b then _ else _) _ = _ => destruct b; cbn [bind]
  | |- bind (bind (Py.index ?l ?i) _) _ = _ =>
      let E := fresh "E" in
      destruct (Py.index l i) as [?|x] eqn:E; cbn [bind];
      [|apply index_raise in E; subst x; reflexivity]
  | |- bind (Py.index ?l ?i) _ = _ =>
      let E := fresh "E" in
      destruct (Py.index l i) as [?|x] eqn:E; cbn [bind];
      [|apply index_raise in E; subst x; reflexivity]
  end.

(** C4, as the program has it: on an entry whose summary splits on [;] into
    fewer than 9 segments the extractor raises the built-in [IndexError]. *)
Theorem summary_too_short (e : Entry) :
  length (Py.split ";" (summary e)) < 9 ->
  _extract_data_from_entry e = Raise IndexError.
Proof.
  intros Hlen.
  assert (H8 : Py.index (Py.split ";" (summary e)) 8 = Raise IndexError).
  { unfold Py.index.
    now rewrite (proj2 (nth_error_None _ 8)) by lia. }
  unfold _extract_data_from_entry. cbv zeta.
  rewrite H8.
  repeat step_index.
  all: reflexivity.
Qed.

Lemma summary_too_short_witness :
  _extract_data_from_entry short_summary = Raise IndexError.
Proof. apply (summary_too_short short_summary). vm_compute. lia. Defined.

(** C4 fails on a summary of two segments: what the extractor raises is
    [IndexError]; the program has no error named [MalformedSummary]. *)
Lemma summary_too_short_is_index_error :
  length (Py.split ";" (summary short_summary)) = 2 /\
  _extract_data_from_entry short_summary = Raise IndexError /\
  exn_name IndexError <> "MalformedSummary".
Proof.
  split; [reflexivity|]. split; [vm_compute; reflexivity|].
  cbn. discriminate.
Qed.

(** A value portion that strips to text without a colon is what the program
    reads from the segment with [split(':')[1]]. *)
Lemma value_portion_read (seg v : string) :
  value_portion seg = Some v ->
  Py.count ":" (Py.strip " " v) = 0 ->
  Py.index (Py.split ":" seg) 1 = Ok v.
Proof.
  unfold value_portion. intros Hv Hc.
  rewrite index_split_1, Hv.
  rewrite count_strip in Hc by reflexivity.
  now rewrite upto_no_occurrence.
Qed.

(** Both sides run the same statement next. *)
Ltac step_both :=
  lazymatch goal with
  | H : ?c = Ok _ |- bind ?c _ = bind ?c _ => rewrite H; cbn [bind]
  | H : ?b = true
    |- bind (if ?b then _ else _) _ = bind (if ?b then _ else _) _ =>
      rewrite H; cbn [bind]
  | |- bind ?c _ = bind ?c _ => destruct c; cbn [bind]; [|reflexivity]
  end.

(** When the value of the wind-direction segment strips to "-", the
    wind-speed segment is not read: an entry that differs from this one in
    that segment only has the same outcome, failure included, and a record
    that is returned has wind direction "-", wind speed 0 and wind-speed
    unit "m/s". *)
Theorem wind_sentinel (e e' : Entry) (s3 v : string) :
  nth_error (Py.split ";" (summary e)) 3 = Some s3 ->
  value_portion s3 = Some v ->
  Py.strip " " v = "-" ->
  title e' = title e ->
  (forall i, i <> 4 ->
     nth_error (Py.split ";" (summary e')) i =
     nth_error (Py.split ";" (summary e)) i) ->
  _extract_data_from_entry e' = _extract_data_from_entry e /\
  forall r, _extract_data_from_entry e = Ok r ->
    _windDirection r = Some "-" /\
    _windSpeedVal r = Some (Py.float_of_Z 0) /\
    _windSpeedUnits r = Some "m/s".
Proof.
  intros H3 Hv Hs Ht Hi.
  assert (Hw : Py.index (Py.split ":" s3) 1 = Ok v).
  { apply value_portion_read; [exact Hv|]. now rewrite Hs. }
  apply index_ok in H3.
  split.
  - assert (Hidx : forall i, i <> 4 ->
              Py.index (Py.split ";" (summary e')) i =
              Py.index (Py.split ";" (summary e)) i).
    { intros i Hne. unfold Py.index. now rewrite Hi. }
    assert (Hb : ("-" =? Py.strip " " v) = true) by now rewrite Hs.
    unfold _extract_data_from_entry. cbv zeta.
    rewrite Ht.
    rewrite (Hidx 0), (Hidx 1), (Hidx 2), (Hidx 3), (Hidx 5), (Hidx 6),
      (Hidx 7), (Hidx 8) by discriminate.
    do 10 step_both.
    reflexivity.
  - intros r Hr.
    destruct (extract_inversion e r Hr)
      as (name & s3' & windd & s7 & t7 & _ & H3' & Hw' & _ & _ & _ & Hd & Hz & _).
    rewrite H3 in H3'. injection H3' as <-.
    rewrite Hw in Hw'. injection Hw' as <-.
    rewrite Hs in Hd. destruct (Hz Hs) as [Hval Hunit].
    repeat split; assumption.
Qed.

Lemma wind_sentinel_witness :
  _extract_data_from_entry belgrade_calm = _extract_data_from_entry belgrade /\
  forall r, _extract_data_from_entry belgrade = Ok r ->
    _windDirection r = Some "-" /\
    _windSpeedVal r = Some (Py.float_of_Z 0) /\
    _windSpeedUnits r = Some "m/s".
Proof.
  apply (wind_sentinel belgrade belgrade_calm " Wind direction: -" " -").
  - reflexivity.
  - reflexivity.
  - reflexivity.
  - reflexivity.
  - intros i Hi.
    do 10 (destruct i as [|i];
           [first [contradiction | vm_compute; reflexivity]|]).
    vm_compute. reflexivity.
Defined.

(** When the value of the snow segment strips to the bare unit "cm", a
    record that is returned has snow thickness 0 and snow-thickness unit
    "cm". *)
Theorem snow_sentinel (e : Entry) (r : _WeatherStationData) (s7 v : string) :
  nth_error (Py.split ";" (summary e)) 7 = Some s7 ->
  value_portion s7 = Some v ->
  Py.strip " " v = "cm" ->
  _extract_data_from_entry e = Ok r ->
  _snowThicknessVal r = Some (Py.float_of_Z 0) /\
  _snowThicknessUnits r = Some "cm".
Proof.
  intros H7 Hv Hs Hr.
  assert (Hw : Py.index (Py.split ":" s7) 1 = Ok v).
  { apply value_portion_read; [exact Hv|]. now rewrite Hs. }
  apply index_ok in H7.
  destruct (extract_inversion e r Hr)
    as (name & s3 & windd & s7' & t7 & _ & _ & _ & H7' & Ht7 & _ & _ & _ & Hz & _).
  rewrite H7 in H7'. injection H7' as <-.
  rewrite Hw in Ht7. injection Ht7 as <-.
  exact (Hz Hs).
Qed.

Lemma snow_sentinel_witness :
  _snowThicknessVal belgrade_observed = Some (Py.float_of_Z 0) /\
  _snowThicknessUnits belgrade_observed = Some "cm".
Proof.
  apply (snow_sentinel belgrade belgrade_observed " Snow: cm" " cm").
  - reflexivity.
  - reflexivity.
  - reflexivity.
  - vm_compute. reflexivity.
Defined.

Lemma extract_populated (e : Entry) (r : _WeatherStationData) :
  _extract_data_from_entry e = Ok r -> populated r = true.
Proof.
  intros Hr.
  destruct (extract_inversion e r Hr) as (name & s3 & windd & s7 & t7 & H).
  apply H.
Qed.

Lemma observed_data_loop_populated (entries : list Entry) :
  forall acc l,
    forallb populated acc = true ->
    observed_data_loop entries acc = Ok l ->
    forallb populated l = true.
Proof.
  induction entries as [|e rest IH]; intros acc l Hacc; simpl.
  - now intros [= <-].
  - destruct (_extract_data_from_entry e) as [o|x] eqn:Ho; cbn [bind];
      [|discriminate].
    apply IH. rewrite forallb_app, Hacc. simpl.
    now rewrite (extract_populated e o Ho).
Qed.

Lemma lookup_loop_populated (entries : list Entry) (stationName : string) :
  forall r,
    observed_data_by_station_loop entries stationName None = Ok (Some r) ->
    populated r = true.
Proof.
  induction entries as [|e rest IH]; intros r; simpl; [discriminate|].
  destruct (Py.index (Py.split ":" (title e)) 1) as [t|x]; cbn [bind];
    [|discriminate].
  destruct (Py.strip " " t =? stationName); [|apply IH].
  destruct (_extract_data_from_entry e) as [o|x] eqn:Ho; cbn [bind];
    [|discriminate].
  intros [= <-]. exact (extract_populated e o Ho).
Qed.

(** C7: the extractor either returns a record in which all 15 attributes are
    set, or raises; it never returns a record with an attribute left at
    [None].  The two methods that call it hand on nothing else: every record
    that [observed_data] or [observed_data_by_station] returns has all its
    attributes set. *)
Theorem extraction_atomic :
  (forall e,
     (exists r, _extract_data_from_entry e = Ok r /\ populated r = true) \/
     (exists x, _extract_data_from_entry e = Raise x)) /\
  (forall entries,
     match observed_data entries with
     | Ok l => forallb populated l = true
     | Raise _ => True
     end) /\
  (forall entries stationName,
     match observed_data_by_station entries stationName with
     | Ok (Some r) => populated r = true
     | _ => True
     end).
Proof.
  split; [|split].
  - intros e. destruct (_extract_data_from_entry e) as [r|x] eqn:Hr.
    + left. exists r. split; [reflexivity|]. exact (extract_populated e r Hr).
    + right. exists x. reflexivity.
  - intros entries. destruct (observed_data entries) as [l|x] eqn:Hl; [|exact I].
    exact (observed_data_loop_populated entries [] l eq_refl Hl).
  - intros entries stationName.
    destruct (observed_data_by_station entries stationName) as [[r|]|x] eqn:Hl;
      try exact I.
    exact (lookup_loop_populated entries stationName r Hl).
Qed.

(** ** The station index *)

Lemma title_with_colon (t : string) :
  1 <= Py.count ":" t ->
  exists rest,
    after_first ":" t = Some rest /\
    Py.index (Py.split ":" t) 1 = Ok (upto ":" rest) /\
    derived_name t = Some (Py.strip " " (upto ":" rest)).
Proof.
  intros Hc. unfold derived_name. rewrite index_split_1.
  destruct (after_first ":" t) as [rest|] eqn:Hrest.
  - exists rest. repeat split.
  - apply after_first_none in Hrest. lia.
Qed.

Lemma stations_loop_spec (entries : list Entry) :
  Forall (fun e => 1 <= Py.count ":" (title e)) entries ->
  exists l,
    (forall acc, stations_loop entries acc = Ok (acc ++ l)) /\
    map Some l = map (fun e => derived_name (title e)) entries.
Proof.
  induction 1 as [|e rest He _ (l & Hl & Hmap)].
  - exists []. split; [|reflexivity].
    intros acc. simpl. now rewrite app_nil_r.
  - destruct (title_with_colon _ He) as (t & _ & Hidx & Hname).
    exists (Py.strip " " (upto ":" t) :: l). split.
    + intros acc. simpl. rewrite Hidx. cbn [bind].
      rewrite Hl, <- app_assoc. reflexivity.
    + simpl. now rewrite Hname, Hmap.
Qed.

(** C8: on entries whose titles all contain a colon, [stations] returns one
    name per entry, the name of the i-th entry at position i: the order is
    that of the feed, and a name that occurs twice is listed twice. *)
Theorem stations_in_feed_order (entries : list Entry) :
  Forall (fun e => 1 <= Py.count ":" (title e)) entries ->
  exists l,
    stations entries = Ok l /\
    length l = length entries /\
    map Some l = map (fun e => derived_name (title e)) entries.
Proof.
  intros H. destruct (stations_loop_spec entries H) as (l & Hl & Hmap).
  exists l. split; [exact (Hl [])|]. split; [|exact Hmap].
  rewrite <- (length_map Some l), Hmap. apply length_map.
Qed.

Lemma stations_in_feed_order_witness :
  exists l,
    stations [belgrade; novi_sad; belgrade] = Ok l /\
    length l = 3 /\
    map Some l = [Some "Belgrade"; Some "Novi"; Some "Belgrade"].
Proof.
  apply (stations_in_feed_order [belgrade; novi_sad; belgrade]).
  repeat constructor; vm_compute; lia.
Defined.

Lemma lookup_loop_spec (stationName : string) (entries : list Entry) :
  forall observed,
    Forall (fun e => 1 <= Py.count ":" (title e)) (visited stationName entries) ->
    observed_data_by_station_loop entries stationName observed =
    match find (names stationName) entries with
    | Some e => o <- _extract_data_from_entry e ;; Ok (Some o)
    | None => Ok observed
    end.
Proof.
  induction entries as [|e rest IH]; intros observed Hv; simpl; [reflexivity|].
  simpl in Hv. inversion Hv as [|? ? He Hrest]; subst.
  destruct (title_with_colon _ He) as (t & _ & Hidx & Hname).
  rewrite Hidx. cbn [bind]. unfold names in *. rewrite Hname in *.
  destruct (Py.strip " " (upto ":" t) =? stationName); [reflexivity|].
  apply IH. exact Hrest.
Qed.

(** C9, as the program has it: when the titles of the entries the search
    visits (those up to and including the first whose name is the query, all
    of them when there is none) contain a colon, [observed_data_by_station]
    returns what the extractor makes of the first entry in feed order whose
    title carries exactly the query name, whatever follows that entry, and
    [None] when no title carries it.  The name a title carries is the text
    between its first colon and the next, without the surrounding spaces. *)
Theorem lookup_first_match (entries : list Entry) (stationName : string) :
  Forall (fun e => 1 <= Py.count ":" (title e)) (visited stationName entries) ->
  observed_data_by_station entries stationName =
  match find (names stationName) entries with
  | Some e => o <- _extract_data_from_entry e ;; Ok (Some o)
  | None => Ok None
  end.
Proof. apply lookup_loop_spec. Qed.

Lemma lookup_first_match_witness :
  observed_data_by_station [novi_sad; belgrade; stationbelgrade] "Belgrade" =
  match find (names "Belgrade") [novi_sad; belgrade; stationbelgrade] with
  | Some e => o <- _extract_data_from_entry e ;; Ok (Some o)
  | None => Ok None
  end.
Proof.
  apply (lookup_first_match [novi_sad; belgrade; stationbelgrade] "Belgrade").
  repeat constructor; vm_compute; lia.
Defined.

(** C9 fails when a title without a colon comes before the match: the first
    entry named "Belgrade" is the second one and extracts well, but the
    search raises [IndexError] at the first entry; and with no entry of the
    name at all, the search raises instead of returning [None]. *)
Lemma lookup_behind_colonless_title :
  find (names "Belgrade") [stationbelgrade; belgrade] = Some belgrade /\
  _extract_data_from_entry belgrade = Ok belgrade_observed /\
  observed_data_by_station [stationbelgrade; belgrade] "Belgrade"
    = Raise IndexError /\
  find (names "Nis") [stationbelgrade] = None /\
  observed_data_by_station [stationbelgrade] "Nis" = Raise IndexError.
Proof. repeat split; vm_compute; reflexivity. Qed.

(** ** The export views *)

(** C10: [as_json] returns the [json.dumps] serialization of the very
    dictionary [as_dictionary] returns, a dictionary of 15 distinct keys; so
    a decoder that reads that serialization back as the dictionary reads the
    result of [as_json] back as the dictionary of [as_dictionary], the same
    keys bound to the same values. *)
Theorem export_views_agree (dumps : PyDict -> string)
    (loads : string -> option PyDict) (self : _WeatherStationData) :
  loads (dumps (as_dictionary self)) = Some (as_dictionary self) ->
  as_json dumps self = dumps (as_dictionary self) /\
  loads (as_json dumps self) = Some (as_dictionary self) /\
  map fst (as_dictionary self) =
    [ "stationName"; "stationID"; "tempVal"; "tempUnits"; "pressureVal";
      "pressureUnits"; "windDirection"; "windSpeedVal"; "windSpeedUnits";
      "humidityVal"; "humidityUnits"; "weatherDescription";
      "weatherDescriptionID"; "snowThicknessVal"; "snowThicknessUnits" ] /\
  NoDup (map fst (as_dictionary self)).
Proof.
  intros Hloads.
  assert (Hjson : as_json dumps self = dumps (as_dictionary self))
    by reflexivity.
  split; [exact Hjson|]. split; [now rewrite Hjson|].
  split; [reflexivity|].
  cbn. repeat (constructor; [cbn; intuition discriminate|]). constructor.
Qed.

Lemma export_views_agree_witness :
  as_json sample_dumps belgrade_observed =
    sample_dumps (as_dictionary belgrade_observed) /\
  sample_loads (as_json sample_dumps belgrade_observed) =
    Some (as_dictionary belgrade_observed) /\
  map fst (as_dictionary belgrade_observed) =
    [ "stationName"; "stationID"; "tempVal"; "tempUnits"; "pressureVal";
      "pressureUnits"; "windDirection"; "windSpeedVal"; "windSpeedUnits";
      "humidityVal"; "humidityUnits"; "weatherDescription";
      "weatherDescriptionID"; "snowThicknessVal"; "snowThicknessUnits" ] /\
  NoDup (map fst (as_dictionary belgrade_observed)).
Proof.
  apply (export_views_agree sample_dumps sample_loads belgrade_observed).
  vm_compute. reflexivity.
Defined.


(** * Further properties of the feed module *)

(** ** The loops, one entry at a time *)

Lemma stations_loop_acc (entries : list Entry) :
  forall acc,
    stations_loop entries acc =
    (l <- stations_loop entries [] ;; Ok (acc ++ l)).
Proof.
  induction entries as [|e rest IH]; intros acc; simpl.
  - now rewrite app_nil_r.
  - destruct (Py.index (Py.split ":" (title e)) 1) as [t|x]; cbn [bind];
      [|reflexivity].
    rewrite (IH (acc ++ _)), (IH [_]).
    destruct (stations_loop rest []); cbn [bind]; [|reflexivity].
    now rewrite <- app_assoc.
Qed.

Lemma stations_cons (e : Entry) (rest : list Entry) :
  stations (e :: rest) =
  (t <- Py.index (Py.split ":" (title e)) 1 ;;
   l <- stations rest ;;
   Ok (Py.strip " " t :: l)).
Proof.
  unfold stations. simpl.
  destruct (Py.index (Py.split ":" (title e)) 1) as [t|x]; cbn [bind];
    [|reflexivity].
  now rewrite stations_loop_acc.
Qed.

Lemma observed_data_loop_acc (entries : list Entry) :
  forall acc,
    observed_data_loop entries acc =
    (l <- observed_data_loop entries [] ;; Ok (acc ++ l)).
Proof.
  induction entries as [|e rest IH]; intros acc; simpl.
  - now rewrite app_nil_r.
  - destruct (_extract_data_from_entry e) as [o|x]; cbn [bind];
      [|reflexivity].
    rewrite (IH (acc ++ _)), (IH [_]).
    destruct (observed_data_loop rest []); cbn [bind]; [|reflexivity].
    now rewrite <- app_assoc.
Qed.

Lemma observed_data_cons (e : Entry) (rest : list Entry) :
  observed_data (e :: rest) =
  (o <- _extract_data_from_entry e ;;
   l <- observed_data rest ;;
   Ok (o :: l)).
Proof.
  unfold observed_data. simpl.
  destruct (_extract_data_from_entry e) as [o|x]; cbn [bind]; [|reflexivity].
  now rewrite observed_data_loop_acc.
Qed.

Lemma lookup_cons (e : Entry) (rest : list Entry) (stationName : string) :
  observed_data_by_station (e :: rest) stationName =
  (t <- Py.index (Py.split ":" (title e)) 1 ;;
   if Py.strip " " t =? stationName
   then o <- _extract_data_from_entry e ;; Ok (Some o)
   else observed_data_by_station rest stationName).
Proof. reflexivity. Qed.

(** What the program reads from a title is the name the title carries. *)
Lemma title_read (t name : string) :
  Py.index (Py.split ":" t) 1 = Ok name ->
  derived_name t = Some (Py.strip " " name).
Proof.
  unfold derived_name. rewrite index_split_1.
  destruct (after_first ":" t); [now intros [= <-]|discriminate].
Qed.

Lemma extract_name (e : Entry) (r : _WeatherStationData) (t : string) :
  _extract_data_from_entry e = Ok r ->
  Py.index (Py.split ":" (title e)) 1 = Ok t ->
  _stationName r = Some (Py.strip " " t).
Proof.
  intros Hr Ht.
  destruct (extract_inversion e r Hr)
    as (name & s3 & windd & s7 & t7 & Hname & _ & _ & _ & _ & Hn & _).
  rewrite Ht in Hname. now injection Hname as <-.
Qed.

(** ** [observed_data] *)

(** X1: [observed_data] returns a list exactly when every entry extracts, and
    the list then holds the record of each entry, in the order of the feed. *)
Theorem observed_data_all (entries : list Entry)
    (l : list _WeatherStationData) :
  observed_data entries = Ok l <->
  Forall2 (fun e r => _extract_data_from_entry e = Ok r) entries l.
Proof.
  revert l. induction entries as [|e rest IH]; intros l.
  - split.
    + intros [= <-]. constructor.
    + intros H. inversion H. reflexivity.
  - rewrite observed_data_cons. split.
    + destruct (_extract_data_from_entry e) as [o|x] eqn:Ho; cbn [bind];
        [|discriminate].
      destruct (observed_data rest) as [l'|x] eqn:Hl; cbn [bind];
        [|discriminate].
      intros [= <-]. constructor; [exact Ho|]. now apply IH.
    + intros H. inversion H as [|? o ? l' Ho Hrest]; subst.
      rewrite Ho. cbn [bind].
      now rewrite (proj2 (IH l') Hrest).
Qed.

Lemma observed_data_all_witness :
  observed_data [belgrade; novi_sad] = Ok [belgrade_observed;
    Assign._stationName "Novi" belgrade_observed].
Proof.
  apply (proj2 (observed_data_all [belgrade; novi_sad] _)).
  repeat constructor; vm_compute; reflexivity.
Defined.

(** X2: [observed_data] stops at the first entry that does not extract and
    raises what the extractor raised on it, whatever the entries after it. *)
Theorem observed_data_first_failure (pre post : list Entry) (e : Entry)
    (x : exn) :
  Forall (fun e' => exists r, _extract_data_from_entry e' = Ok r) pre ->
  _extract_data_from_entry e = Raise x ->
  observed_data (pre ++ e :: post) = Raise x.
Proof.
  intros Hpre He. induction Hpre as [|e' pre' [r Hr] _ IH]; simpl.
  - rewrite observed_data_cons, He. reflexivity.
  - rewrite observed_data_cons, Hr. cbn [bind]. now rewrite IH.
Qed.

Lemma observed_data_first_failure_witness :
  observed_data ([belgrade] ++ stationbelgrade :: [short_summary; belgrade])
  = Raise IndexError.
Proof.
  apply (observed_data_first_failure [belgrade] _ stationbelgrade).
  - repeat constructor. exists belgrade_observed. vm_compute. reflexivity.
  - vm_compute. reflexivity.
Defined.

(** ** [stations] *)

(** X3: when [observed_data] succeeds, [stations] succeeds as well, and the
    names it lists are the station names of the records, position by
    position. *)
Theorem stations_of_observed_data (entries : list Entry)
    (l : list _WeatherStationData) :
  observed_data entries = Ok l ->
  exists names,
    stations entries = Ok names /\ map Some names = map _stationName l.
Proof.
  revert l. induction entries as [|e rest IH]; intros l.
  - intros [= <-]. exists []. split; reflexivity.
  - rewrite observed_data_cons, stations_cons.
    destruct (_extract_data_from_entry e) as [o|x] eqn:Ho; cbn [bind];
      [|discriminate].
    destruct (observed_data rest) as [l'|x] eqn:Hl; cbn [bind];
      [|discriminate].
    intros [= <-].
    destruct (extract_inversion e o Ho)
      as (name & s3 & windd & s7 & t7 & Hname & _ & _ & _ & _ & Hn & _).
    destruct (IH l' eq_refl) as (names & Hs & Hmap).
    rewrite Hname, Hs. cbn [bind].
    eexists. split; [reflexivity|]. simpl. now rewrite Hn, Hmap.
Qed.

Lemma stations_of_observed_data_witness :
  exists names,
    stations [belgrade; novi_sad] = Ok names /\
    map Some names =
    map _stationName
      [belgrade_observed; Assign._stationName "Novi" belgrade_observed].
Proof.
  apply (stations_of_observed_data [belgrade; novi_sad]).
  vm_compute. reflexivity.
Defined.

(** X4: [stations] raises [IndexError] as soon as the title of one entry has
    no colon, whatever the other entries are. *)
Theorem stations_colonless_title (entries : list Entry) :
  Exists (fun e => Py.count ":" (title e) = 0) entries ->
  stations entries = Raise IndexError.
Proof.
  induction 1 as [e rest He|e rest _ IH]; rewrite stations_cons.
  - apply after_first_none in He. now rewrite index_split_1, He.
  - destruct (Py.index (Py.split ":" (title e)) 1) as [t|x] eqn:Ht;
      cbn [bind].
    + now rewrite IH.
    + now rewrite (index_raise _ _ _ Ht).
Qed.

Lemma stations_colonless_title_witness :
  stations [belgrade; stationbelgrade; novi_sad] = Raise IndexError.
Proof.
  apply (stations_colonless_title [belgrade; stationbelgrade; novi_sad]).
  apply Exists_cons_tl. apply Exists_cons_hd. reflexivity.
Defined.

(** X5: [stations] reads the titles only: two feeds with the same titles in
    the same order have the same listing, whatever their summaries. *)
Theorem stations_titles_only (entries entries' : list Entry) :
  map title entries = map title entries' ->
  stations entries = stations entries'.
Proof.
  revert entries'.
  induction entries as [|e rest IH]; intros [|e' rest']; simpl;
    try discriminate; [reflexivity|].
  intros [= Ht Hrest]. rewrite !stations_cons, Ht, (IH rest' Hrest).
  reflexivity.
Qed.

Lemma stations_titles_only_witness :
  stations [belgrade; short_summary] = stations [belgrade_calm; belgrade].
Proof.
  apply (stations_titles_only [belgrade; short_summary]
           [belgrade_calm; belgrade]).
  reflexivity.
Defined.

(** ** [observed_data_by_station] *)

Lemma lookup_name (entries : list Entry) (stationName : string)
    (r : _WeatherStationData) :
  observed_data_by_station entries stationName = Ok (Some r) ->
  _stationName r = Some stationName.
Proof.
  induction entries as [|e rest IH]; [discriminate|].
  rewrite lookup_cons.
  destruct (Py.index (Py.split ":" (title e)) 1) as [t|x] eqn:Ht; cbn [bind];
    [|discriminate].
  destruct (Py.strip " " t =? stationName) eqn:Hn; [|exact IH].
  destruct (_extract_data_from_entry e) as [o|x] eqn:Ho; cbn [bind];
    [|discriminate].
  intros [= <-]. apply String.eqb_eq in Hn. subst stationName.
  exact (extract_name e o t Ho Ht).
Qed.

(** X6: a record that [observed_data_by_station] returns carries the station
    name that was asked for. *)
Theorem lookup_returns_the_name (entries : list Entry) (stationName : string)
    (r : _WeatherStationData) :
  observed_data_by_station entries stationName = Ok (Some r) ->
  _stationName r = Some stationName.
Proof. exact (lookup_name entries stationName r). Qed.

Lemma lookup_returns_the_name_witness :
  _stationName belgrade_observed = Some "Belgrade".
Proof.
  apply (lookup_returns_the_name [novi_sad; belgrade] "Belgrade").
  vm_compute. reflexivity.
Defined.

Lemma lookup_none (entries : list Entry) (stationName : string) :
  observed_data_by_station entries stationName = Ok None <->
  exists l, stations entries = Ok l /\ ~ In stationName l.
Proof.
  induction entries as [|e rest IH].
  - split; [|reflexivity]. intros _. exists []. split; [reflexivity|].
    intros [].
  - rewrite lookup_cons, stations_cons.
    destruct (Py.index (Py.split ":" (title e)) 1) as [t|x]; cbn [bind].
    + destruct (Py.strip " " t =? stationName) eqn:Hn.
      * apply String.eqb_eq in Hn. split.
        -- destruct (_extract_data_from_entry e); discriminate.
        -- intros (l & Hl & Hnot). exfalso.
           destruct (stations rest); [|discriminate].
           injection Hl as <-. apply Hnot. now left.
      * apply String.eqb_neq in Hn. rewrite IH. split.
        -- intros (l & Hl & Hnot). rewrite Hl. cbn [bind].
           eexists. split; [reflexivity|]. intros [H|H]; auto.
        -- intros (l & Hl & Hnot).
           destruct (stations rest) as [l'|]; [|discriminate].
           injection Hl as <-. exists l'. split; [reflexivity|].
           intros H. apply Hnot. now right.
    + split; [discriminate|]. intros (l & Hl & _). discriminate.
Qed.

(** X7: [observed_data_by_station] returns [None] exactly when [stations]
    lists the feed without error and the name is not in the listing; so
    after a [None] the listing can always be printed. *)
Theorem lookup_none_iff_not_listed (entries : list Entry)
    (stationName : string) :
  observed_data_by_station entries stationName = Ok None <->
  exists l, stations entries = Ok l /\ ~ In stationName l.
Proof. exact (lookup_none entries stationName). Qed.

Lemma lookup_none_iff_not_listed_witness :
  observed_data_by_station [belgrade; novi_sad] "Nis" = Ok None.
Proof.
  apply (proj2 (lookup_none_iff_not_listed [belgrade; novi_sad] "Nis")).
  exists ["Belgrade"; "Novi"]. split; [reflexivity|].
  intros [H|[H|[]]]; discriminate.
Defined.

(** X8: when [observed_data] succeeds, looking a name up gives the first of
    its records that carries the name, and [None] if no record does. *)
Theorem lookup_in_observed_data (entries : list Entry)
    (l : list _WeatherStationData) (stationName : string) :
  observed_data entries = Ok l ->
  observed_data_by_station entries stationName =
  Ok (find (named stationName) l).
Proof.
  revert l. induction entries as [|e rest IH]; intros l.
  - now intros [= <-].
  - rewrite observed_data_cons, lookup_cons.
    destruct (_extract_data_from_entry e) as [o|x] eqn:Ho; cbn [bind];
      [|discriminate].
    destruct (observed_data rest) as [l'|x]; cbn [bind]; [|discriminate].
    intros [= <-].
    destruct (extract_inversion e o Ho)
      as (name & s3 & windd & s7 & t7 & Hname & _ & _ & _ & _ & Hn & _).
    rewrite Hname. cbn [bind]. simpl. unfold named at 1. rewrite Hn.
    destruct (Py.strip " " name =? stationName); [reflexivity|].
    now apply IH.
Qed.

Lemma lookup_in_observed_data_witness :
  observed_data_by_station [novi_sad; belgrade; belgrade_calm] "Belgrade" =
  Ok (find (named "Belgrade")
        [Assign._stationName "Novi" belgrade_observed; belgrade_observed;
         belgrade_observed]).
Proof.
  apply (lookup_in_observed_data [novi_sad; belgrade; belgrade_calm]).
  vm_compute. reflexivity.
Defined.

(** X9: a lookup reads the summary of the first entry of the name only: two
    feeds with the same titles, and the same summary wherever the title
    carries the name, give the same answer, however malformed the summaries
    of the other stations are. *)
Theorem lookup_other_summaries (entries entries' : list Entry)
    (stationName : string) :
  Forall2 (fun e e' => title e = title e' /\
                       (names stationName e = true -> summary e = summary e'))
          entries entries' ->
  observed_data_by_station entries stationName =
  observed_data_by_station entries' stationName.
Proof.
  induction 1 as [|e e' rest rest' [Ht Hs] _ IH]; [reflexivity|].
  rewrite !lookup_cons, <- Ht.
  destruct (Py.index (Py.split ":" (title e)) 1) as [t|x] eqn:Hidx;
    cbn [bind]; [|reflexivity].
  destruct (Py.strip " " t =? stationName) eqn:Hn; [|exact IH].
  assert (He : e' = e).
  { unfold names in Hs. rewrite (title_read _ _ Hidx), Hn in Hs.
    destruct e, e'; simpl in *. now rewrite Ht, (Hs eq_refl). }
  now rewrite He.
Qed.

Lemma lookup_other_summaries_witness :
  observed_data_by_station
    [{| title := "Station: Novi: Sad"; summary := "" |}; belgrade] "Belgrade" =
  observed_data_by_station [novi_sad; belgrade] "Belgrade".
Proof.
  apply (lookup_other_summaries
           [{| title := "Station: Novi: Sad"; summary := "" |}; belgrade]
           [novi_sad; belgrade] "Belgrade").
  repeat constructor; simpl; try reflexivity. vm_compute. discriminate.
Defined.

(** ** More on splitting and stripping *)

Section MoreStrings.

Variable c : ascii.

Lemma count_upto (s : string) : Py.count c (upto c s) = 0.
Proof.
  induction s as [|a s IH]; simpl; [reflexivity|].
  destruct (Ascii.eqb a c) eqn:E; simpl; [reflexivity|].
  now rewrite E.
Qed.

(** No piece of a split contains the separator. *)
Lemma split_pieces_free (s : string) :
  Forall (fun w => Py.count c w = 0) (Py.split c s).
Proof.
  induction s as [|a s IH]; simpl.
  - repeat constructor.
  - destruct (Ascii.eqb a c) eqn:E.
    + constructor; [reflexivity|exact IH].
    + destruct (Py.split c s) as [|w ws]; inversion IH; subst;
        constructor; simpl; rewrite ?E; auto.
Qed.

Lemma index_split_free (s w : string) (i : nat) :
  Py.index (Py.split c s) i = Ok w -> Py.count c w = 0.
Proof.
  intros H. apply index_ok in H. apply nth_error_In in H.
  exact (proj1 (Forall_forall _ _) (split_pieces_free s) w H).
Qed.

Lemma split_app (s t : string) :
  Py.split c (s ++ String c t) = Py.split c s ++ Py.split c t.
Proof.
  induction s as [|a s IH]; simpl.
  - now rewrite Ascii.eqb_refl.
  - destruct (Ascii.eqb a c); [now rewrite IH|].
    rewrite IH. destruct (Py.split c s) as [|w ws] eqn:E; [|reflexivity].
    pose proof (length_split c s) as L. rewrite E in L. discriminate.
Qed.

Lemma rstrip_idempotent (s : string) :
  Py.rstrip c (Py.rstrip c s) = Py.rstrip c s.
Proof.
  induction s as [|a s IH]; simpl; [reflexivity|].
  destruct (Py.rstrip c s) as [|b r] eqn:R.
  - destruct (Ascii.eqb a c) eqn:E; simpl; [reflexivity|now rewrite E].
  - change (Py.rstrip c (String a (String b r))) with
      (match Py.rstrip c (String b r) with
       | EmptyString =>
           if Ascii.eqb a c then EmptyString else String a EmptyString
       | r' => String a r'
       end).
    now rewrite IH.
Qed.

(** What [lstrip] returns does not begin with the stripped character. *)
Lemma lstrip_head (s : string) :
  match Py.lstrip c s with
  | EmptyString => True
  | String a _ => Ascii.eqb a c = false
  end.
Proof.
  induction s as [|a s IH]; simpl; [exact I|].
  destruct (Ascii.eqb a c) eqn:E; [exact IH|exact E].
Qed.

Lemma rstrip_head (a : ascii) (s : string) :
  Ascii.eqb a c = false ->
  exists r, Py.rstrip c (String a s) = String a r.
Proof.
  intros E. simpl. destruct (Py.rstrip c s) as [|b r].
  - rewrite E. now exists EmptyString.
  - now exists (String b r).
Qed.

Lemma strip_idempotent (s : string) :
  Py.strip c (Py.strip c s) = Py.strip c s.
Proof.
  unfold Py.strip. pose proof (lstrip_head s) as H.
  destruct (Py.lstrip c s) as [|a u]; [reflexivity|].
  destruct (rstrip_head a u H) as [r Hr]. rewrite Hr.
  simpl Py.lstrip. rewrite H. rewrite <- Hr. apply rstrip_idempotent.
Qed.

End MoreStrings.

(** The name read from a title has no colon and no space around it. *)
Lemma read_name_clean (t name : string) :
  Py.index (Py.split ":" t) 1 = Ok name ->
  Py.count ":" (Py.strip " " name) = 0 /\
  Py.strip " " (Py.strip " " name) = Py.strip " " name.
Proof.
  intros H. split; [|apply strip_idempotent].
  rewrite count_strip by reflexivity.
  exact (index_split_free _ _ _ _ H).
Qed.

(** X10: the names [stations] lists contain no colon and neither begin nor
    end with a space. *)
Theorem station_names_clean (entries : list Entry) (l : list string) :
  stations entries = Ok l ->
  Forall (fun n => Py.count ":" n = 0 /\ Py.strip " " n = n) l.
Proof.
  revert l. induction entries as [|e rest IH]; intros l.
  - intros [= <-]. constructor.
  - rewrite stations_cons.
    destruct (Py.index (Py.split ":" (title e)) 1) as [t|x] eqn:Ht;
      cbn [bind]; [|discriminate].
    destruct (stations rest) as [l'|x]; cbn [bind]; [|discriminate].
    intros [= <-]. constructor; [|now apply IH].
    exact (read_name_clean _ _ Ht).
Qed.

Lemma station_names_clean_witness :
  Forall (fun n => Py.count ":" n = 0 /\ Py.strip " " n = n)
         ["Belgrade"; "Novi"].
Proof.
  apply (station_names_clean [belgrade; novi_sad]). reflexivity.
Defined.

(** X11: a name that contains a colon, or that begins or ends with a space,
    is never found: whenever [observed_data_by_station] returns a record, the
    name asked for has no colon and no space around it. *)
Theorem lookup_needs_clean_name (entries : list Entry) (stationName : string)
    (r : _WeatherStationData) :
  observed_data_by_station entries stationName = Ok (Some r) ->
  Py.count ":" stationName = 0 /\ Py.strip " " stationName = stationName.
Proof.
  induction entries as [|e rest IH]; [discriminate|].
  rewrite lookup_cons.
  destruct (Py.index (Py.split ":" (title e)) 1) as [t|x] eqn:Ht; cbn [bind];
    [|discriminate].
  destruct (Py.strip " " t =? stationName) eqn:Hn; [|exact IH].
  intros _. apply String.eqb_eq in Hn. subst stationName.
  exact (read_name_clean _ _ Ht).
Qed.

Lemma lookup_needs_clean_name_witness :
  Py.count ":" "Belgrade" = 0 /\ Py.strip " " "Belgrade" = "Belgrade".
Proof.
  apply (lookup_needs_clean_name [novi_sad; belgrade] "Belgrade"
           belgrade_observed).
  vm_compute. reflexivity.
Defined.

(** ** More on the extractor *)

(** The title and the first nine segments, both sides at once: the text
    between the first two colons is all that is read. *)
Ltac seg H :=
  lazymatch type of H with
  | bind (Py.index ?l' ?i) _ = bind (Py.index ?l ?i) _ =>
      revert H;
      destruct (Py.index l' i) as [?|?], (Py.index l i) as [?|?];
      cbn [bind]; intros H;
      [ rewrite H;
        lazymatch type of H with
        | _ = Py.index ?p 1 =>
            destruct (Py.index p 1); cbn [bind]; [|reflexivity]
        end
      | rewrite H; reflexivity
      | rewrite <- H; reflexivity
      | congruence ]
  end.

Lemma extract_by_pieces (e e' : Entry) :
  Py.index (Py.split ":" (title e')) 1 = Py.index (Py.split ":" (title e)) 1 ->
  (forall i, i < 9 ->
     piece (Py.split ";" (summary e')) i = piece (Py.split ";" (summary e)) i) ->
  _extract_data_from_entry e' = _extract_data_from_entry e.
Proof.
  intros Ht Hp.
  pose proof (Hp 0 ltac:(lia)) as H0. pose proof (Hp 1 ltac:(lia)) as H1.
  pose proof (Hp 2 ltac:(lia)) as H2. pose proof (Hp 3 ltac:(lia)) as H3.
  pose proof (Hp 4 ltac:(lia)) as H4. pose proof (Hp 5 ltac:(lia)) as H5.
  pose proof (Hp 6 ltac:(lia)) as H6. pose proof (Hp 7 ltac:(lia)) as H7.
  pose proof (Hp 8 ltac:(lia)) as H8. clear Hp. unfold piece in *.
  unfold _extract_data_from_entry. cbv zeta. rewrite Ht.
  destruct (Py.index (Py.split ":" (title e)) 1); cbn [bind]; [|reflexivity].
  seg H0. seg H1. seg H2. seg H3.
  match goal with
  | |- bind (if ?b then _ else _) _ = _ => destruct b; cbn [bind]
  end.
  - seg H5. seg H6. seg H7.
    match goal with
    | |- bind (if ?b then _ else _) _ = _ => destruct b; cbn [bind]
    end; seg H8; reflexivity.
  - seg H4. seg H5. seg H6. seg H7.
    match goal with
    | |- bind (if ?b then _ else _) _ = _ => destruct b; cbn [bind]
    end; seg H8; reflexivity.
Qed.

(** X12: what follows the ninth segment of a summary is not read: text
    added after a further semicolon leaves the outcome as it was. *)
Theorem text_after_ninth_segment (t s more : string) :
  9 <= length (Py.split ";" s) ->
  _extract_data_from_entry {| title := t; summary := s ++ String ";" more |} =
  _extract_data_from_entry {| title := t; summary := s |}.
Proof.
  intros Hlen. apply extract_by_pieces; [reflexivity|].
  intros i Hi. simpl. rewrite split_app. unfold piece, Py.index.
  now rewrite nth_error_app1 by lia.
Qed.

Lemma text_after_ninth_segment_witness :
  _extract_data_from_entry
    {| title := "Station: Belgrade";
       summary := summary belgrade ++ String ";" " Rain: 3 mm; UV: 2" |} =
  _extract_data_from_entry
    {| title := "Station: Belgrade"; summary := summary belgrade |}.
Proof.
  apply (text_after_ninth_segment "Station: Belgrade" (summary belgrade)
           " Rain: 3 mm; UV: 2").
  vm_compute. lia.
Defined.

(** X13: the extractor reads by position, not by label: of the title and of
    each of the first nine segments only the text between the first colon
    and the next counts, so two entries that agree on these texts have the
    same outcome, whatever their labels say. *)
Theorem extraction_positional (e e' : Entry) :
  Py.index (Py.split ":" (title e')) 1 = Py.index (Py.split ":" (title e)) 1 ->
  (forall i, i < 9 ->
     piece (Py.split ";" (summary e')) i = piece (Py.split ";" (summary e)) i) ->
  _extract_data_from_entry e' = _extract_data_from_entry e.
Proof. exact (extract_by_pieces e e'). Qed.

Lemma extraction_positional_witness :
  _extract_data_from_entry belgrade_relabelled =
  _extract_data_from_entry belgrade_calm.
Proof.
  apply (extraction_positional belgrade_calm belgrade_relabelled).
  - reflexivity.
  - intros i Hi.
    do 9 (destruct i as [|i]; [vm_compute; reflexivity|]).
    lia.
Defined.

(** Rewrites with the outcome of each statement that has run. *)
Ltac replay :=
  unfold piece, measure;
  repeat match goal with
    | H : ?c = Ok _ |- context [bind ?c _] => rewrite H; cbn [bind]
    | H : ?b = _ |- context [if ?b then _ else _] => rewrite H; cbn [bind]
    end;
  try eassumption; try reflexivity.

(** The record of a successful extraction, attribute by attribute. *)
Lemma extract_shape (e : Entry) (r : _WeatherStationData) :
  _extract_data_from_entry e = Ok r ->
  exists name id t1 t2 windd t5 desc t7 descid idv tv tu pv pu wv wu hv hu dv
         sv su,
    r = Station (Some (Py.strip " " name)) (Some idv) (Some tv) (Some tu)
          (Some pv) (Some pu) (Some (Py.strip " " windd)) (Some wv) (Some wu)
          (Some hv) (Some hu) (Some (Py.strip " " desc)) (Some dv) (Some sv)
          (Some su) /\
    Py.index (Py.split ":" (title e)) 1 = Ok name /\
    piece (Py.split ";" (summary e)) 0 = Ok id /\
    piece (Py.split ";" (summary e)) 1 = Ok t1 /\
    piece (Py.split ";" (summary e)) 2 = Ok t2 /\
    piece (Py.split ";" (summary e)) 3 = Ok windd /\
    piece (Py.split ";" (summary e)) 5 = Ok t5 /\
    piece (Py.split ";" (summary e)) 6 = Ok desc /\
    piece (Py.split ";" (summary e)) 7 = Ok t7 /\
    piece (Py.split ";" (summary e)) 8 = Ok descid /\
    Py.int (Py.strip " " id) = Ok idv /\
    measure (Py.split " " (Py.strip " " t1)) = Ok (tv, tu) /\
    measure (Py.split " " (Py.strip " " t2)) = Ok (pv, pu) /\
    (if "-" =? Py.strip " " windd then Ok (S754_zero false, "m/s")
     else t4 <- piece (Py.split ";" (summary e)) 4 ;;
          measure (Py.split " " (Py.strip " " t4))) = Ok (wv, wu) /\
    measure (Py.split " " (Py.strip " " t5)) = Ok (hv, hu) /\
    Py.int (Py.strip " " descid) = Ok dv /\
    (if "cm" =? Py.strip " " t7 then Ok (S754_zero false, "cm")
     else measure (Py.split " " (Py.strip " " t7))) = Ok (sv, su).
Proof.
  unfold _extract_data_from_entry. cbv zeta.
  repeat step.
  all: intros [= <-].
  all: literal.
  all: do 21 eexists.
  all: split; [reflexivity|].
  all: repeat (split; [solve [replay]|]).
  all: solve [replay].
Qed.

Lemma measure_unit (tokens : list string) (v : Py.float) (u : string) :
  measure tokens = Ok (v, u) -> Py.index tokens 1 = Ok u.
Proof.
  unfold measure.
  destruct (Py.index tokens 0) as [x|]; cbn [bind]; [|discriminate].
  destruct (Py.float_of_string x); cbn [bind]; [|discriminate].
  destruct (Py.index tokens 1); cbn [bind]; [|discriminate].
  now intros [= _ <-].
Qed.

Lemma no_second_token (t : string) :
  Py.count " " (Py.strip " " t) = 0 ->
  forall v u, measure (Py.split " " (Py.strip " " t)) <> Ok (v, u).
Proof.
  intros Hc v u H. apply measure_unit, index_ok in H.
  assert (L : nth_error (Py.split " " (Py.strip " " t)) 1 = None).
  { apply nth_error_None. rewrite length_split, Hc. lia. }
  congruence.
Qed.

(** X14: a temperature, pressure or humidity without a space between the
    number and the unit is refused: when the value read from segment 1, 2 or
    5 holds no space once stripped, the extractor returns no record. *)
Theorem measurement_needs_unit (e : Entry) (i : nat) (t : string)
    (r : _WeatherStationData) :
  In i [1; 2; 5] ->
  piece (Py.split ";" (summary e)) i = Ok t ->
  Py.count " " (Py.strip " " t) = 0 ->
  _extract_data_from_entry e <> Ok r.
Proof.
  intros Hi Ht Hc Hr.
  destruct (extract_shape e r Hr)
    as (name & id & t1 & t2 & windd & t5 & desc & t7 & descid & idv & tv & tu
        & pv & pu & wv & wu & hv & hu & dv & sv & su & _ & _ & _ & H1 & H2
        & _ & H5 & _ & _ & _ & _ & M1 & M2 & _ & M5 & _).
  destruct Hi as [<-|[<-|[<-|[]]]].
  - rewrite Ht in H1. injection H1 as <-. exact (no_second_token t Hc _ _ M1).
  - rewrite Ht in H2. injection H2 as <-. exact (no_second_token t Hc _ _ M2).
  - rewrite Ht in H5. injection H5 as <-. exact (no_second_token t Hc _ _ M5).
Qed.

Lemma measurement_needs_unit_witness :
  _extract_data_from_entry
    {| title := "Station: Belgrade";
       summary := "Station ID: 13274; Temperature: 5°C; Pressure: 1013.2 hPa; Wind direction: -; Wind speed: 0 m/s; Humidity: 80 %; Weather description: Cloudy; Snow: cm; Weather description ID: 3;" |}
  <> Ok belgrade_observed.
Proof.
  apply (measurement_needs_unit _ 1 " 5°C").
  - left. reflexivity.
  - reflexivity.
  - reflexivity.
Defined.

Lemma piece_free (csvData : list string) (i : nat) (t : string) :
  piece csvData i = Ok t -> Py.count ":" t = 0.
Proof.
  unfold piece. destruct (Py.index csvData i) as [s|]; cbn [bind];
    [|discriminate].
  apply index_split_free.
Qed.

(** X15: in every record the extractor returns, the station name, the wind
    direction and the weather description contain no colon and neither begin
    nor end with a space. *)
Theorem text_attributes_clean (e : Entry) (r : _WeatherStationData) :
  _extract_data_from_entry e = Ok r ->
  Forall (fun a => exists v, a = Some v /\
                     Py.count ":" v = 0 /\ Py.strip " " v = v)
         [_stationName r; _windDirection r; _weatherDescription r].
Proof.
  intros Hr.
  destruct (extract_shape e r Hr)
    as (name & id & t1 & t2 & windd & t5 & desc & t7 & descid & idv & tv & tu
        & pv & pu & wv & wu & hv & hu & dv & sv & su & -> & Hn & _ & _ & _
        & Hw & _ & Hd & _).
  cbn. repeat constructor; eexists; (split; [reflexivity|]);
    (split; [|apply strip_idempotent]); rewrite count_strip by reflexivity.
  - exact (index_split_free _ _ _ _ Hn).
  - exact (piece_free _ _ _ Hw).
  - exact (piece_free _ _ _ Hd).
Qed.

Lemma text_attributes_clean_witness :
  Forall (fun a => exists v, a = Some v /\
                     Py.count ":" v = 0 /\ Py.strip " " v = v)
         [_stationName belgrade_observed; _windDirection belgrade_observed;
          _weatherDescription belgrade_observed].
Proof.
  apply (text_attributes_clean belgrade). vm_compute. reflexivity.
Defined.

Lemma measure_unit_free (t : string) (v : Py.float) (u : string) :
  measure (Py.split " " t) = Ok (v, u) -> Py.count " " u = 0.
Proof. intros H. exact (index_split_free _ _ _ _ (measure_unit _ _ _ H)). Qed.

(** X16: in every record the extractor returns, none of the five units
    contains a space. *)
Theorem units_without_space (e : Entry) (r : _WeatherStationData) :
  _extract_data_from_entry e = Ok r ->
  Forall (fun a => exists u, a = Some u /\ Py.count " " u = 0)
         [_tempUnits r; _pressureUnits r; _windSpeedUnits r;
          _humidityUnits r; _snowThicknessUnits r].
Proof.
  intros Hr.
  destruct (extract_shape e r Hr)
    as (name & id & t1 & t2 & windd & t5 & desc & t7 & descid & idv & tv & tu
        & pv & pu & wv & wu & hv & hu & dv & sv & su & -> & _ & _ & _ & _
        & _ & _ & _ & _ & _ & _ & M1 & M2 & M4 & M5 & _ & M7).
  cbn. repeat constructor; eexists; (split; [reflexivity|]).
  - exact (measure_unit_free _ _ _ M1).
  - exact (measure_unit_free _ _ _ M2).
  - destruct ("-" =? Py.strip " " windd).
    + now injection M4 as _ <-.
    + destruct (piece (Py.split ";" (summary e)) 4); cbn [bind] in M4;
        [|discriminate].
      exact (measure_unit_free _ _ _ M4).
  - exact (measure_unit_free _ _ _ M5).
  - destruct ("cm" =? Py.strip " " t7).
    + now injection M7 as _ <-.
    + exact (measure_unit_free _ _ _ M7).
Qed.

Lemma units_without_space_witness :
  Forall (fun a => exists u, a = Some u /\ Py.count " " u = 0)
         [_tempUnits belgrade_observed; _pressureUnits belgrade_observed;
          _windSpeedUnits belgrade_observed; _humidityUnits belgrade_observed;
          _snowThicknessUnits belgrade_observed].
Proof.
  apply (units_without_space belgrade). vm_compute. reflexivity.
Defined.

(** * Properties of the console output *)

Lemma prefix_empty (s : string) : String.prefix "" s = true.
Proof. destruct s; reflexivity. Qed.

(** [0 != x] fails for the two zeros only. *)
Lemma nonzero_false (a : option Py.float) :
  nonzero a = false <-> exists s, a = Some (S754_zero s).
Proof.
  split.
  - destruct a as [[s|s| |s m e]|]; try discriminate.
    + intros _. now exists s.
    + destruct s; discriminate.
    + destruct s; discriminate.
  - intros [s ->]. reflexivity.
Qed.

Section ConsoleProperties.

Variable str_float : Py.float -> string.

Lemma wind_line (self : _WeatherStationData) :
  existsb (String.prefix "wind direction: ") (display_data str_float self) =
  nonzero (_windSpeedVal self).
Proof.
  unfold display_data.
  destruct (nonzero (_windSpeedVal self)), (nonzero (_snowThicknessVal self));
    cbn; rewrite ?prefix_empty; reflexivity.
Qed.

Lemma snow_line (self : _WeatherStationData) :
  existsb (String.prefix "          snow: ") (display_data str_float self) =
  nonzero (_snowThicknessVal self).
Proof.
  unfold display_data.
  destruct (nonzero (_windSpeedVal self)), (nonzero (_snowThicknessVal self));
    cbn; rewrite ?prefix_empty; reflexivity.
Qed.

(** X17: [display_data] leaves the wind line out exactly when the wind
    speed is a zero of either sign, and the snow line exactly when the snow
    thickness is one; an attribute that is [None], a NaN or any other number
    gets its line. *)
Theorem display_optional_lines (self : _WeatherStationData) :
  (existsb (String.prefix "wind direction: ") (display_data str_float self)
   = false <-> exists s, _windSpeedVal self = Some (S754_zero s)) /\
  (existsb (String.prefix "          snow: ") (display_data str_float self)
   = false <-> exists s, _snowThicknessVal self = Some (S754_zero s)).
Proof.
  rewrite wind_line, snow_line, !nonzero_false. split; tauto.
Qed.

(** X18: a record extracted from an entry whose wind direction is the
    sentinel "-" is displayed without a wind line, and one extracted from an
    entry whose snow value is the bare "cm" without a snow line. *)
Theorem display_of_sentinels (e : Entry) (r : _WeatherStationData)
    (windd t7 : string) :
  _extract_data_from_entry e = Ok r ->
  piece (Py.split ";" (summary e)) 3 = Ok windd ->
  piece (Py.split ";" (summary e)) 7 = Ok t7 ->
  (Py.strip " " windd = "-" ->
   existsb (String.prefix "wind direction: ") (display_data str_float r)
   = false) /\
  (Py.strip " " t7 = "cm" ->
   existsb (String.prefix "          snow: ") (display_data str_float r)
   = false).
Proof.
  intros Hr H3 H7.
  destruct (extract_inversion e r Hr)
    as (name & s3 & windd' & s7 & t7' & _ & Hs3 & Hw & Hs7 & Ht7 & _ & _
        & Hwind & Hsnow & _).
  unfold piece in H3, H7. rewrite Hs3 in H3. rewrite Hs7 in H7.
  cbn [bind] in H3, H7. rewrite Hw in H3. rewrite Ht7 in H7.
  injection H3 as ->. injection H7 as ->.
  rewrite wind_line, snow_line. split; intros Hs.
  - now rewrite (proj1 (Hwind Hs)).
  - now rewrite (proj1 (Hsnow Hs)).
Qed.

End ConsoleProperties.

Lemma display_of_sentinels_witness :
  (Py.strip " " " -" = "-" ->
   existsb (String.prefix "wind direction: ")
     (display_data (fun _ => "") belgrade_observed) = false) /\
  (Py.strip " " " cm" = "cm" ->
   existsb (String.prefix "          snow: ")
     (display_data (fun _ => "") belgrade_observed) = false).
Proof.
  apply (display_of_sentinels (fun _ => "") belgrade belgrade_observed).
  - vm_compute. reflexivity.
  - reflexivity.
  - reflexivity.
Defined.

(** ** [FetchData.execute] *)

Section ExecuteProperties.

Variable str_float : Py.float -> string.
Variable fetch : string -> FeedParserDict.
Variables programName station : string.

(** What [feedparser.parse] answered for the address of the feed. *)
Let fetched : FeedParserDict := fetch (Feed.url Feed.__init__).

Lemma execute_on_fetched :
  execute str_float fetch programName station =
  if negb (bozo fetched =? 0)%Z then
    ([(programName ++ ": Error " ++ str_int (bozo fetched) ++ newline)%string],
     Exit)
  else if "all" =? station then
    match stations (entries fetched) with
    | Raise x => ([], Uncaught (Feed.Builtin x))
    | Ok l => (sorted l ++ [newline], Exit)
    end
  else
    match observed_data_by_station (entries fetched) station with
    | Raise x => ([], Uncaught (Feed.Builtin x))
    | Ok None =>
        match stations (entries fetched) with
        | Raise x =>
            ([ (programName ++ ": Station " ++ quote ++ station ++ quote
                  ++ " not available.")%string;
               "Weather stations available for:" ],
             Uncaught (Feed.Builtin x))
        | Ok l =>
            ([ (programName ++ ": Station " ++ quote ++ station ++ quote
                  ++ " not available.")%string;
               "Weather stations available for:" ]
             ++ sorted l ++ [newline], Exit)
        end
    | Ok (Some data) => (display_data str_float data ++ [newline], Exit)
    end.
Proof.
  assert (Hf : Feed.parse fetch Feed.__init__ =
               {| Feed._url := Feed.url Feed.__init__;
                  Feed._feed := Some fetched;
                  Feed._status := Some (bozo fetched) |}) by reflexivity.
  unfold execute. cbv zeta. rewrite Hf.
  unfold Feed.stations, Feed.observed_data_by_station, Feed.on_entries,
    Feed.status, failed, fmt_int.
  cbn [Feed._feed Feed._status].
  destruct (negb (bozo fetched =? 0)%Z); [reflexivity|].
  destruct ("all" =? station).
  - destruct (stations (entries fetched)); reflexivity.
  - destruct (observed_data_by_station (entries fetched) station)
      as [[r|]|x]; try reflexivity.
    destruct (stations (entries fetched)); reflexivity.
Qed.

(** X19: the action either ends with the call of [exitf], or is ended by an
    exception that a query of the feed raised while the feed had answered
    well, and then before anything was printed: no exception comes after
    the first line, and the listing that follows a name not found never
    raises. *)
Theorem execute_endings :
  snd (execute str_float fetch programName station) = Exit \/
  exists x,
    execute str_float fetch programName station = ([], Uncaught x) /\
    bozo fetched = 0%Z.
Proof.
  rewrite execute_on_fetched.
  destruct (bozo fetched =? 0)%Z eqn:Hb; cbn [negb]; [|now left].
  apply Z.eqb_eq in Hb.
  destruct ("all" =? station).
  - destruct (stations (entries fetched)) as [l|x]; [now left|].
    right. now exists (Feed.Builtin x).
  - destruct (observed_data_by_station (entries fetched) station)
      as [[r|]|x] eqn:Hl; [now left| |right; now exists (Feed.Builtin x)].
    apply lookup_none in Hl. destruct Hl as (l & -> & _). now left.
Qed.

Lemma lookup_no_title (entries : list Entry) (stationName : string) :
  Forall (fun e => exists n, derived_name (title e) = Some n /\
                             n <> stationName) entries ->
  observed_data_by_station entries stationName = Ok None.
Proof.
  induction 1 as [|e rest (n & Hn & Hne) _ IH]; [reflexivity|].
  rewrite lookup_cons. unfold derived_name in Hn. rewrite index_split_1.
  destruct (after_first ":" (title e)) as [t|]; [|discriminate].
  injection Hn as <-. cbn [bind].
  apply String.eqb_neq in Hne. now rewrite Hne.
Qed.

(** X20: when the feed answered well, the station asked for is not "all",
    every title has a colon and none carries the name asked for, the action
    says so, prints the heading and then the names of all stations in
    ascending order, and exits; the name asked for is not among them. *)
Theorem execute_not_found :
  bozo fetched = 0%Z ->
  "all" <> station ->
  Forall (fun e => exists n, derived_name (title e) = Some n /\ n <> station)
         (entries fetched) ->
  exists l,
    stations (entries fetched) = Ok l /\ ~ In station l /\
    execute str_float fetch programName station =
    ([ (programName ++ ": Station " ++ quote ++ station ++ quote
          ++ " not available.")%string;
       "Weather stations available for:" ]
     ++ sorted l ++ [newline], Exit).
Proof.
  intros Hb Hall Hno. pose proof (lookup_no_title _ _ Hno) as Hl.
  rewrite execute_on_fetched, Hb, Hl. cbn [negb Z.eqb].
  apply String.eqb_neq in Hall. rewrite Hall.
  apply lookup_none in Hl. destruct Hl as (l & Hs & Hnot).
  exists l. rewrite Hs. repeat split. exact Hnot.
Qed.

(** X21: when the feed answered well and a record is found, the action
    prints it and exits, and the first line printed names the station asked
    for, with the station ID the record holds. *)
Theorem execute_found (r : _WeatherStationData) :
  bozo fetched = 0%Z ->
  "all" <> station ->
  observed_data_by_station (entries fetched) station = Ok (Some r) ->
  exists id rest,
    _stationID r = Some id /\
    execute str_float fetch programName station =
    (("       station: " ++ station ++ " (" ++ str_int id ++ ")")%string
       :: rest ++ [newline], Exit).
Proof.
  intros Hb Hall Hl. rewrite execute_on_fetched, Hb, Hl. cbn [negb Z.eqb].
  apply String.eqb_neq in Hall. rewrite Hall.
  pose proof (lookup_name _ _ _ Hl) as Hn.
  pose proof (lookup_loop_populated _ _ _ Hl) as Hp.
  destruct r as [n id tv tu pv pu wd wv wu hv hu d di sv su].
  simpl in Hn. subst n. destruct id as [id|]; [|discriminate].
  exists id.
  exists (tl (display_data str_float
                (Station (Some station) (Some id) tv tu pv pu wd wv wu hv hu
                   d di sv su))).
  split; reflexivity.
Qed.

(** X22: asked for "all", the action never looks a station up: when the feed
    answered well and every title has a colon it prints the names of the
    stations, each as often as it occurs in the feed, in ascending order,
    then a blank line, and exits. *)
Theorem execute_all :
  bozo fetched = 0%Z ->
  station = "all" ->
  Forall (fun e => 1 <= Py.count ":" (title e)) (entries fetched) ->
  exists l,
    stations (entries fetched) = Ok l /\
    execute str_float fetch programName station
      = (sorted l ++ [newline], Exit) /\
    Permutation.Permutation l (sorted l) /\
    Sorted.LocallySorted (fun a b => String.leb a b = true) (sorted l).
Proof.
  intros Hb Hs Hc. rewrite execute_on_fetched, Hb, Hs. cbn [negb Z.eqb].
  destruct (stations_loop_spec _ Hc) as (l & Hl & _).
  exists l. unfold stations. rewrite (Hl []).
  change ("all" =? "all") with true. cbn [app].
  repeat split.
  - apply StringSort.Permuted_sort.
  - apply StringSort.LocallySorted_sort.
Qed.

End ExecuteProperties.

Lemma execute_not_found_witness :
  exists l,
    stations (entries (sample_fetch (Feed.url Feed.__init__))) = Ok l /\
    ~ In "Nis" l /\
    execute sample_str_float sample_fetch "weatherserbia" "Nis" =
    ([ ("weatherserbia" ++ ": Station " ++ quote ++ "Nis" ++ quote
          ++ " not available.")%string;
       "Weather stations available for:" ]
     ++ sorted l ++ [newline], Exit).
Proof.
  apply (execute_not_found sample_str_float sample_fetch "weatherserbia"
           "Nis").
  - reflexivity.
  - discriminate.
  - repeat constructor; eexists; (split; [reflexivity|discriminate]).
Defined.

Lemma execute_found_witness :
  exists id rest,
    _stationID belgrade_observed = Some id /\
    execute sample_str_float sample_fetch "weatherserbia" "Belgrade" =
    (("       station: " ++ "Belgrade" ++ " (" ++ str_int id ++ ")")%string
       :: rest ++ [newline], Exit).
Proof.
  apply (execute_found sample_str_float sample_fetch "weatherserbia"
           "Belgrade" belgrade_observed).
  - reflexivity.
  - discriminate.
  - vm_compute. reflexivity.
Defined.

Lemma execute_all_witness :
  exists l,
    stations (entries (sample_fetch (Feed.url Feed.__init__))) = Ok l /\
    execute sample_str_float sample_fetch "weatherserbia" "all"
      = (sorted l ++ [newline], Exit) /\
    Permutation.Permutation l (sorted l) /\
    Sorted.LocallySorted (fun a b => String.leb a b = true) (sorted l).
Proof.
  apply (execute_all sample_str_float sample_fetch "weatherserbia" "all").
  - reflexivity.
  - reflexivity.
  - repeat constructor; vm_compute; lia.
Defined.

(** ** The state of a feed object *)

(** X23: in every state that calls of [parse] and [update] lead to, the
    address is the one the object was made with and the status is the
    [bozo] flag of the feed the object holds; the object holds no feed in
    the state before the first [parse] only, and as long as it holds none
    the queries raise [AttributeError]. *)
Theorem feed_state (self : Feed.WeatherSerbiaFeed) :
  reachable self ->
  Feed.url self = Feed.url Feed.__init__ /\
  Feed.status self = option_map bozo (Feed._feed self) /\
  (Feed._feed self = None <-> self = Feed.__init__) /\
  (Feed._feed self = None ->
   Feed.stations self = Feed.Raises Feed.AttributeError /\
   Feed.observed_data self = Feed.Raises Feed.AttributeError /\
   forall stationName,
     Feed.observed_data_by_station self stationName
       = Feed.Raises Feed.AttributeError).
Proof.
  assert (Hp : forall fetch s,
             Feed.url s = Feed.url Feed.__init__ ->
             Feed.url (Feed.parse fetch s) = Feed.url Feed.__init__ /\
             Feed.status (Feed.parse fetch s)
               = option_map bozo (Feed._feed (Feed.parse fetch s)) /\
             (Feed._feed (Feed.parse fetch s) = None <->
              Feed.parse fetch s = Feed.__init__) /\
             (Feed._feed (Feed.parse fetch s) = None ->
              Feed.stations (Feed.parse fetch s)
                = Feed.Raises Feed.AttributeError /\
              Feed.observed_data (Feed.parse fetch s)
                = Feed.Raises Feed.AttributeError /\
              forall stationName,
                Feed.observed_data_by_station (Feed.parse fetch s) stationName
                  = Feed.Raises Feed.AttributeError)).
  { intros fetch s Hu. split; [exact Hu|]. split; [reflexivity|].
    split; [split; discriminate|discriminate]. }
  induction 1 as [|fetch self _ (Hu & _)|fetch self _ (Hu & _)].
  - repeat split; reflexivity.
  - exact (Hp fetch self Hu).
  - exact (Hp fetch self Hu).
Qed.

Lemma feed_state_witness :
  Feed.url (Feed.update sample_fetch (Feed.parse sample_fetch Feed.__init__))
  = Feed.url Feed.__init__.
Proof.
  apply (feed_state
           (Feed.update sample_fetch (Feed.parse sample_fetch Feed.__init__))).
  apply reach_update, reach_parse, reach_init.
Defined.

(** * Properties of the command-line application *)

Lemma append_nil_r (a : string) : (a ++ "")%string = a.
Proof. induction a as [|x a IH]; simpl; [reflexivity|now rewrite IH]. Qed.

Lemma append_assoc (a b c : string) :
  ((a ++ b) ++ c = a ++ (b ++ c))%string.
Proof. induction a as [|x a IH]; simpl; [reflexivity|now rewrite IH]. Qed.

(** X24: [_format_epilog] returns [None] exactly when it is given neither an
    addition nor a mail address; a text it returns begins with the addition,
    when there is one, and ends with the line that names the mail address,
    when there is one. *)
Theorem format_epilog_parts (epilogAddition bugMail : option string) :
  (_format_epilog epilogAddition bugMail = None <->
   epilogAddition = None /\ bugMail = None) /\
  (forall a, epilogAddition = Some a ->
     exists rest, _format_epilog epilogAddition bugMail = Some (a ++ rest)%string) /\
  (forall m, bugMail = Some m ->
     exists lead,
       _format_epilog epilogAddition bugMail =
       Some (lead ++ "Report bugs to <" ++ m ++ ">.")%string).
Proof.
  destruct epilogAddition as [a|], bugMail as [m|]; cbn -[append].
  - split; [split; [discriminate|intros [H _]; discriminate]|].
    split.
    + intros a' [= <-]. eexists. reflexivity.
    + intros m' [= <-]. exists (a ++ newline ++ newline)%string.
      now rewrite !append_assoc.
  - split; [split; [discriminate|intros [H _]; discriminate]|].
    split; [|discriminate].
    intros a' [= <-]. exists EmptyString. now rewrite append_nil_r.
  - split; [split; [discriminate|intros [_ H]; discriminate]|].
    split; [discriminate|].
    intros m' [= <-]. exists EmptyString. reflexivity.
  - split; [split; auto|]. split; discriminate.
Qed.

(** ** Argument groups *)

Lemma group_by_title_loop_some (items : list App.Group) (v : App.PyArg)
    (g : App.Group) :
  App._group_by_title_loop items v None = Some g ->
  In g items /\ App.is_title v g = true.
Proof.
  induction items as [|item rest IH]; simpl; [discriminate|].
  destruct (App.is_title v item) eqn:E.
  - intros [= <-]. split; [now left|exact E].
  - intros H. destruct (IH H) as [Hin Ht]. split; [now right|exact Ht].
Qed.

Lemma group_by_title_loop_none (items : list App.Group) (v : App.PyArg) :
  App._group_by_title_loop items v None = None <->
  Forall (fun g => App.is_title v g = false) items.
Proof.
  induction items as [|item rest IH]; simpl.
  - split; [constructor|reflexivity].
  - destruct (App.is_title v item) eqn:E.
    + split; [discriminate|]. intros H. inversion H. congruence.
    + rewrite IH. split; [now constructor|]. intros H. now inversion H.
Qed.

Lemma get_filter_group (kwargs : list (string * App.PyArg)) :
  App.get "group" (filter (fun kv => negb ("group" =? fst kv)) kwargs) = None.
Proof.
  induction kwargs as [|[k v] rest IH]; [reflexivity|].
  cbn [filter fst]. destruct ("group" =? k) eqn:E; cbn [negb App.get];
    [exact IH|].
  rewrite String.eqb_sym, E. exact IH.
Qed.

Lemma get_filter_other (key : string) (kwargs : list (string * App.PyArg)) :
  key <> "group" ->
  App.get key (filter (fun kv => negb ("group" =? fst kv)) kwargs) =
  App.get key kwargs.
Proof.
  intros Hk. induction kwargs as [|[k v] rest IH]; [reflexivity|].
  cbn [filter fst]. destruct ("group" =? k) eqn:E; cbn [negb App.get].
  - apply String.eqb_eq in E. subst k.
    apply String.eqb_neq in Hk. rewrite String.eqb_sym, Hk. exact IH.
  - now rewrite IH.
Qed.

(** X25: when [add_argument] passes a call on to a group, the group is one
    of the application's groups and bears the title given under the keyword
    [group]; the positional arguments are passed unchanged, and the keywords
    passed are those received without [group], each with its value. *)
Theorem add_argument_on_group (args args' : list string)
    (kwargs kwargsr : list (string * App.PyArg)) (groups : list App.Group)
    (g : App.Group) :
  App.add_argument args kwargs groups = App.Returns (App.OnGroup g args' kwargsr) ->
  In g groups /\
  App.get "group" kwargs = Some (App.AStr (App.title g)) /\
  args' = args /\
  App.get "group" kwargsr = None /\
  forall key, key <> "group" -> App.get key kwargsr = App.get key kwargs.
Proof.
  unfold App.add_argument, App._group_by_title.
  destruct (App.get "group" kwargs) as [v|]; [|discriminate].
  destruct (App._group_by_title_loop groups v None) as [g'|] eqn:Hg.
  - destruct (group_by_title_loop_some _ _ _ Hg) as [Hin Ht].
    destruct v; try discriminate. simpl in Ht. apply String.eqb_eq in Ht.
    intros [= <- <- <-]. subst s.
    repeat split; auto using get_filter_group, get_filter_other.
  - destruct v; discriminate.
Qed.

Lemma add_argument_on_group_witness :
  In {| App.title := "general options"; App.description := None |}
     [{| App.title := "general options"; App.description := None |}] /\
  App.get "group"
    [("action", App.AStr "store_true"); ("group", App.AStr "general options")]
  = Some (App.AStr "general options") /\
  ["-V"; "--version"] = ["-V"; "--version"] /\
  App.get "group" [("action", App.AStr "store_true")] = None /\
  forall key, key <> "group" ->
    App.get key [("action", App.AStr "store_true")] =
    App.get key
      [("action", App.AStr "store_true"); ("group", App.AStr "general options")].
Proof.
  apply (add_argument_on_group ["-V"; "--version"] ["-V"; "--version"]
           [("action", App.AStr "store_true");
            ("group", App.AStr "general options")]
           [("action", App.AStr "store_true")]
           [{| App.title := "general options"; App.description := None |}]).
  reflexivity.
Defined.

(** X26: [add_argument] refuses a call itself, with an exception of its own
    and before any call of [argparse], exactly when the keyword [group]
    holds a value other than [None] that is the title of none of the groups;
    what it raises then is [ValueError].  In every other case it makes one
    call of [argparse] and ends as that call ends. *)
Theorem add_argument_unknown_group (E : Type)
    (argparse : App.Call -> option E) (args : list string)
    (kwargs : list (string * App.PyArg)) (groups : list App.Group) :
  (forall x,
     add_argument_run argparse args kwargs groups = Refused x <->
     x = App.Builtin ValueError /\
     exists v, App.get "group" kwargs = Some v /\ v <> App.ANone /\
               Forall (fun g => App.is_title v g = false) groups) /\
  ((forall x, add_argument_run argparse args kwargs groups <> Refused x) ->
   exists call,
     add_argument_run argparse args kwargs groups
       = Forwarded call (argparse call)).
Proof.
  unfold add_argument_run. split.
  - intros x.
    assert (H : App.add_argument args kwargs groups = App.Raises x <->
                x = App.Builtin ValueError /\
                exists v, App.get "group" kwargs = Some v /\
                          v <> App.ANone /\
                          Forall (fun g => App.is_title v g = false) groups).
    { unfold App.add_argument, App._group_by_title.
      destruct (App.get "group" kwargs) as [v|].
      - destruct (App._group_by_title_loop groups v None) as [g|] eqn:Hg.
        + split.
          * destruct v; discriminate.
          * intros (_ & v' & [= <-] & Hv & Hall).
            apply group_by_title_loop_none in Hall. congruence.
        + apply group_by_title_loop_none in Hg. split.
          * destruct v; try discriminate; intros [= <-];
              (split; [reflexivity|]); eexists; repeat split; auto;
              discriminate.
          * intros (-> & v' & [= <-] & Hv & _). destruct v; congruence.
      - split; [discriminate|]. intros (_ & v & H & _). discriminate. }
    rewrite <- H.
    destruct (App.add_argument args kwargs groups); split; congruence.
  - intros Hno.
    destruct (App.add_argument args kwargs groups) as [call|x].
    + now exists call.
    + now destruct (Hno x).
Qed.

Lemma add_argument_unknown_group_witness :
  add_argument_run (fun _ => @None unit) ["--usage"]
    [("group", App.AStr "other options")]
    [{| App.title := "general options"; App.description := None |}]
  = Refused (App.Builtin ValueError).
Proof.
  apply (proj2 (proj1 (add_argument_unknown_group unit (fun _ => None)
                         ["--usage"] [("group", App.AStr "other options")]
                         [{| App.title := "general options";
                             App.description := None |}]) _)).
  split; [reflexivity|]. eexists. split; [reflexivity|].
  split; [discriminate|]. repeat constructor.
Defined.

(** X27: an argument added under the title of a group that
    [add_argument_group] has just made is never refused by the method
    itself: it calls [add_argument] of a group of that title, of the new
    group when no group bore the title before, with the positional arguments
    unchanged, and ends as that call of [argparse] ends. *)
Theorem add_argument_after_group (E : Type) (argparse : App.Call -> option E)
    (t : string) (d : option string)
    (groups groups' : list App.Group) (g : App.Group) (args : list string)
    (kwargs : list (string * App.PyArg)) :
  App.add_argument_group (Some t) d groups = App.Returns (g, groups') ->
  App.get "group" kwargs = Some (App.AStr t) ->
  exists g' kwargsr,
    add_argument_run argparse args kwargs groups'
      = Forwarded (App.OnGroup g' args kwargsr)
          (argparse (App.OnGroup g' args kwargsr)) /\
    App.title g' = t /\
    (Forall (fun old => App.title old <> t) groups -> g' = g).
Proof.
  unfold App.add_argument_group. intros [= <- <-] Hk.
  unfold add_argument_run, App.add_argument, App._group_by_title.
  rewrite Hk.
  set (new := {| App.title := t; App.description := d |}).
  assert (H : exists g', App._group_by_title_loop (groups ++ [new])
                           (App.AStr t) None = Some g' /\
                         App.title g' = t /\
                         (Forall (fun old => App.title old <> t) groups ->
                          g' = new)).
  { induction groups as [|item rest IH]; simpl.
    - rewrite String.eqb_refl. exists new. repeat split.
    - destruct (t =? App.title item) eqn:E'.
      + apply String.eqb_eq in E'. exists item. repeat split; auto.
        intros Hall. inversion Hall. congruence.
      + destruct IH as (g' & Hg & Ht & Hn). exists g'. repeat split; auto.
        intros Hall. inversion Hall. auto. }
  destruct H as (g' & -> & Ht & Hn).
  exists g'. eexists. repeat split; assumption.
Qed.

Lemma add_argument_after_group_witness :
  exists g' kwargsr,
    add_argument_run (fun _ => @None unit) ["--list-stations"]
      [("action", App.AStr "store_true");
       ("group", App.AStr "general options")]
      [{| App.title := "general options"; App.description := None |}]
    = Forwarded (App.OnGroup g' ["--list-stations"] kwargsr) None /\
    App.title g' = "general options" /\
    (Forall (fun old => App.title old <> "general options") [] ->
     g' = {| App.title := "general options"; App.description := None |}).
Proof.
  apply (add_argument_after_group unit (fun _ => None) "general options"
           None []).
  - reflexivity.
  - reflexivity.
Defined.


(** * Extraction of well-formed entries *)

Lemma piece_ok (csvData : list string) (i : nat) (t : string) :
  piece csvData i = Ok t ->
  exists s, Py.index csvData i = Ok s /\ Py.index (Py.split ":" s) 1 = Ok t.
Proof.
  unfold piece. destruct (Py.index csvData i) as [s|]; cbn [bind];
    [|discriminate].
  intros H. exists s. split; [reflexivity|exact H].
Qed.

Lemma measure_ok (tokens : list string) (v : Py.float) (u : string) :
  measure tokens = Ok (v, u) ->
  exists x, Py.index tokens 0 = Ok x /\ Py.float_of_string x = Ok v /\
            Py.index tokens 1 = Ok u.
Proof.
  unfold measure.
  destruct (Py.index tokens 0) as [x|] eqn:E0; cbn [bind]; [|discriminate].
  destruct (Py.float_of_string x) as [v'|] eqn:Ev; cbn [bind];
    [|discriminate].
  destruct (Py.index tokens 1) as [u'|] eqn:E1; cbn [bind]; [|discriminate].
  intros [= <- <-]. exists x.
  split; [|split]; first [reflexivity | assumption].
Qed.

(** Takes the hypotheses on segments and measurements apart. *)
Ltac take_apart :=
  repeat match goal with
    | H : piece _ _ = Ok _ |- _ =>
        apply piece_ok in H; destruct H as (? & ? & ?)
    | H : measure _ = Ok _ |- _ =>
        apply measure_ok in H; destruct H as (? & ? & ? & ?)
    end.

(** Runs the extractor along the outcomes at hand. *)
Ltac run :=
  repeat match goal with
    | H : ?c = Ok _ |- context [bind ?c _] => rewrite H; cbn [bind]
    | H : ?b = _ |- context [if ?b then _ else _] => rewrite H; cbn [bind]
    | |- context [Py.index (_ :: _) _] =>
        progress cbn [Py.index nth_error bind]
    | |- context [Py.float_of_string "0"] =>
        rewrite float_of_string_0; cbn [bind]
    end.

(** When the title and every segment the program reads are well formed, the
    extractor returns the record of their readings. *)
Lemma extract_complete (e : Entry)
    (name id t1 t2 windd t5 desc t7 descid : string) (idv dv : Z)
    (tv pv wv hv sv : Py.float) (tu pu wu hu su : string) :
  Py.index (Py.split ":" (title e)) 1 = Ok name ->
  piece (Py.split ";" (summary e)) 0 = Ok id ->
  Py.int (Py.strip " " id) = Ok idv ->
  piece (Py.split ";" (summary e)) 1 = Ok t1 ->
  measure (Py.split " " (Py.strip " " t1)) = Ok (tv, tu) ->
  piece (Py.split ";" (summary e)) 2 = Ok t2 ->
  measure (Py.split " " (Py.strip " " t2)) = Ok (pv, pu) ->
  piece (Py.split ";" (summary e)) 3 = Ok windd ->
  wind_reading (Py.split ";" (summary e)) windd = Ok (wv, wu) ->
  piece (Py.split ";" (summary e)) 5 = Ok t5 ->
  measure (Py.split " " (Py.strip " " t5)) = Ok (hv, hu) ->
  piece (Py.split ";" (summary e)) 6 = Ok desc ->
  piece (Py.split ";" (summary e)) 7 = Ok t7 ->
  snow_reading t7 = Ok (sv, su) ->
  piece (Py.split ";" (summary e)) 8 = Ok descid ->
  Py.int (Py.strip " " descid) = Ok dv ->
  _extract_data_from_entry e =
  Ok (Station (Some (Py.strip " " name)) (Some idv) (Some tv) (Some tu)
        (Some pv) (Some pu) (Some (Py.strip " " windd)) (Some wv) (Some wu)
        (Some hv) (Some hu) (Some (Py.strip " " desc)) (Some dv) (Some sv)
        (Some su)).
Proof.
  intros Hname H0 Hid H1 M1 H2 M2 H3 Hwind H5 M5 H6 H7 Hsnow H8 Hdv.
  unfold wind_reading in Hwind. unfold snow_reading in Hsnow.
  destruct ("-" =? Py.strip " " windd) eqn:Ew;
    [injection Hwind as <- <-
    |destruct (piece (Py.split ";" (summary e)) 4) as [t4|] eqn:H4;
       cbn [bind] in Hwind; [|discriminate]];
  (destruct ("cm" =? Py.strip " " t7) eqn:Es; [injection Hsnow as <- <-|]);
  take_apart;
  unfold _extract_data_from_entry; cbv zeta; run; reflexivity.
Qed.

(** C5, as the program has it: when the value of the wind-direction segment
    strips to "-" and the title and the segments 0 to 2 and 5 to 8 are well
    formed, the extractor returns a record, whatever the wind-speed segment
    holds (no hypothesis bears on segment 4, which is not read), and the
    record has wind direction "-", wind speed 0 and wind-speed unit "m/s". *)
Theorem calm_entry_extracted (e : Entry)
    (name id t1 t2 s3 windd t5 desc t7 descid : string) (idv dv : Z)
    (tv pv hv sv : Py.float) (tu pu hu su : string) :
  nth_error (Py.split ";" (summary e)) 3 = Some s3 ->
  value_portion s3 = Some windd ->
  Py.strip " " windd = "-" ->
  Py.index (Py.split ":" (title e)) 1 = Ok name ->
  piece (Py.split ";" (summary e)) 0 = Ok id ->
  Py.int (Py.strip " " id) = Ok idv ->
  piece (Py.split ";" (summary e)) 1 = Ok t1 ->
  measure (Py.split " " (Py.strip " " t1)) = Ok (tv, tu) ->
  piece (Py.split ";" (summary e)) 2 = Ok t2 ->
  measure (Py.split " " (Py.strip " " t2)) = Ok (pv, pu) ->
  piece (Py.split ";" (summary e)) 5 = Ok t5 ->
  measure (Py.split " " (Py.strip " " t5)) = Ok (hv, hu) ->
  piece (Py.split ";" (summary e)) 6 = Ok desc ->
  piece (Py.split ";" (summary e)) 7 = Ok t7 ->
  snow_reading t7 = Ok (sv, su) ->
  piece (Py.split ";" (summary e)) 8 = Ok descid ->
  Py.int (Py.strip " " descid) = Ok dv ->
  _extract_data_from_entry e =
  Ok (Station (Some (Py.strip " " name)) (Some idv) (Some tv) (Some tu)
        (Some pv) (Some pu) (Some "-") (Some (Py.float_of_Z 0)) (Some "m/s")
        (Some hv) (Some hu) (Some (Py.strip " " desc)) (Some dv) (Some sv)
        (Some su)).
Proof.
  intros Hs3 Hv Hs Hname H0 Hid H1 M1 H2 M2 H5 M5 H6 H7 Hsnow H8 Hdv.
  assert (H3 : piece (Py.split ";" (summary e)) 3 = Ok windd).
  { unfold piece. rewrite (proj2 (index_ok _ _ _) Hs3). cbn [bind].
    apply value_portion_read; [exact Hv|]. now rewrite Hs. }
  assert (Hwind : wind_reading (Py.split ";" (summary e)) windd
                  = Ok (S754_zero false, "m/s")).
  { unfold wind_reading. now rewrite Hs. }
  rewrite <- Hs.
  exact (extract_complete e name id t1 t2 windd t5 desc t7 descid idv dv
           tv pv _ hv sv tu pu _ hu su
           Hname H0 Hid H1 M1 H2 M2 H3 Hwind H5 M5 H6 H7 Hsnow H8 Hdv).
Qed.

Lemma calm_entry_extracted_witness :
  _extract_data_from_entry belgrade_calm = Ok belgrade_observed.
Proof.
  apply (calm_entry_extracted belgrade_calm
           " Belgrade" " 13274" " 5 °C" " 1013.2 hPa" " Wind direction: -"
           " -" " 80 %" " Cloudy" " cm" " 3" 13274%Z 3%Z
           (Py.float_of_Z 5) (Py.float_of_decimal false 10132 (-1))
           (Py.float_of_Z 80) (Py.float_of_Z 0) "°C" "hPa" "%" "cm");
    vm_compute; reflexivity.
Defined.

(** C5 fails on a calm entry that is malformed elsewhere: with the wind
    direction "-" and a temperature that is no number, the extractor raises
    [ValueError] and returns no record. *)
Lemma calm_entry_not_extracted :
  nth_error (Py.split ";" (summary belgrade_no_temperature)) 3
    = Some " Wind direction: -" /\
  value_portion " Wind direction: -" = Some " -" /\
  Py.strip " " " -" = "-" /\
  _extract_data_from_entry belgrade_no_temperature = Raise ValueError.
Proof. repeat split; vm_compute; reflexivity. Qed.

(** C6, as the program has it: when the value of the snow segment strips to
    the bare unit "cm" and the title and the other segments the program
    reads are well formed, the extractor returns a record, and the record
    has snow thickness 0 and snow-thickness unit "cm". *)
Theorem bare_cm_extracted (e : Entry)
    (name id t1 t2 windd t5 desc s7 t7 descid : string) (idv dv : Z)
    (tv pv wv hv : Py.float) (tu pu wu hu : string) :
  nth_error (Py.split ";" (summary e)) 7 = Some s7 ->
  value_portion s7 = Some t7 ->
  Py.strip " " t7 = "cm" ->
  Py.index (Py.split ":" (title e)) 1 = Ok name ->
  piece (Py.split ";" (summary e)) 0 = Ok id ->
  Py.int (Py.strip " " id) = Ok idv ->
  piece (Py.split ";" (summary e)) 1 = Ok t1 ->
  measure (Py.split " " (Py.strip " " t1)) = Ok (tv, tu) ->
  piece (Py.split ";" (summary e)) 2 = Ok t2 ->
  measure (Py.split " " (Py.strip " " t2)) = Ok (pv, pu) ->
  piece (Py.split ";" (summary e)) 3 = Ok windd ->
  wind_reading (Py.split ";" (summary e)) windd = Ok (wv, wu) ->
  piece (Py.split ";" (summary e)) 5 = Ok t5 ->
  measure (Py.split " " (Py.strip " " t5)) = Ok (hv, hu) ->
  piece (Py.split ";" (summary e)) 6 = Ok desc ->
  piece (Py.split ";" (summary e)) 8 = Ok descid ->
  Py.int (Py.strip " " descid) = Ok dv ->
  _extract_data_from_entry e =
  Ok (Station (Some (Py.strip " " name)) (Some idv) (Some tv) (Some tu)
        (Some pv) (Some pu) (Some (Py.strip " " windd)) (Some wv) (Some wu)
        (Some hv) (Some hu) (Some (Py.strip " " desc)) (Some dv)
        (Some (Py.float_of_Z 0)) (Some "cm")).
Proof.
  intros Hs7 Hv Hs Hname H0 Hid H1 M1 H2 M2 H3 Hwind H5 M5 H6 H8 Hdv.
  assert (H7 : piece (Py.split ";" (summary e)) 7 = Ok t7).
  { unfold piece. rewrite (proj2 (index_ok _ _ _) Hs7). cbn [bind].
    apply value_portion_read; [exact Hv|]. now rewrite Hs. }
  assert (Hsnow : snow_reading t7 = Ok (S754_zero false, "cm")).
  { unfold snow_reading. now rewrite Hs. }
  exact (extract_complete e name id t1 t2 windd t5 desc t7 descid idv dv
           tv pv wv hv _ tu pu wu hu _
           Hname H0 Hid H1 M1 H2 M2 H3 Hwind H5 M5 H6 H7 Hsnow H8 Hdv).
Qed.

Lemma bare_cm_extracted_witness :
  _extract_data_from_entry belgrade = Ok belgrade_observed.
Proof.
  apply (bare_cm_extracted belgrade
           " Belgrade" " 13274" " 5 °C" " 1013.2 hPa" " -" " 80 %" " Cloudy"
           " Snow: cm" " cm" " 3" 13274%Z 3%Z
           (Py.float_of_Z 5) (Py.float_of_decimal false 10132 (-1))
           (Py.float_of_Z 0) (Py.float_of_Z 80) "°C" "hPa" "m/s" "%");
    vm_compute; reflexivity.
Defined.

(** C6 fails on an entry without snow that is malformed elsewhere: with the
    snow value "cm" and a temperature that is no number, the extractor
    raises [ValueError] and returns no record. *)
Lemma bare_cm_not_extracted :
  nth_error (Py.split ";" (summary belgrade_no_temperature)) 7
    = Some " Snow: cm" /\
  value_portion " Snow: cm" = Some " cm" /\
  Py.strip " " " cm" = "cm" /\
  _extract_data_from_entry belgrade_no_temperature = Raise ValueError.
Proof. repeat split; vm_compute; reflexivity. Qed.
